(** * verify/verify_orbits.py: orbital-parameter verification

    A shallow embedding of the script and the properties its specification
    states about it.

    The script computes in Python floats (IEEE 754 binary64) and some of
    the stated properties are identities of real analysis.  The functions of
    the script are therefore embedded once, over an interface [Arith] that
    lists the arithmetic operations the script performs together with the
    exceptions Python raises in them, and the interface is implemented
    twice:
    - [B64.arith]: binary64 on Rocq's primitive floats, the arithmetic the
      script runs in;
    - [Exact.arith]: the real numbers, the arithmetic of the formulas the
      script implements (no rounding, no overflow).

    Module-level names ([G], [M_SUN], [AU], [PLANETS]) live in a store that
    every printing function receives and returns, next to the lines printed
    so far, so that what a function reads, prints, raises and leaves
    unchanged is part of its model. *)

From Stdlib Require Import ZArith List Permutation String Bool Lia.
From Stdlib Require Import Reals Lra.
From Stdlib Require Import Floats.
Import ListNotations.

(** A decimal float literal denotes the nearest binary64 number, as it
    does in Python; no notice is wanted for the ones that are rounded. *)
Set Warnings "-inexact-float".

Set Implicit Arguments.

(** ** Exceptions and results *)

(** The exceptions float arithmetic raises in Python: [x / 0.0]
    ([ZeroDivisionError]), [math.sqrt] of a negative number ([ValueError]),
    [x ** 3] out of range and an [int] too large for a float
    ([OverflowError]). *)
Inductive exn : Set :=
| ZeroDivisionError
| ValueError
| OverflowError.

Inductive result (A : Type) : Type :=
| Val (a : A)
| Exc (e : exn).

Arguments Val {A} a.
Arguments Exc {A} e.

Definition rbind {A B : Type} (r : result A) (k : A -> result B) : result B :=
  match r with
  | Val a => k a
  | Exc e => Exc e
  end.

Declare Scope result_scope.
Delimit Scope result_scope with res.
Notation "x <- r ;; k" := (rbind r (fun x => k))
  (at level 61, r at next level, right associativity) : result_scope.

(** ** The arithmetic the script uses *)

Record Arith (F : Type) : Type := {
  (** the float literal of value m * 10^k *)
  lit : Z -> Z -> F;
  (** an [int] operand of a float operation, converted to float *)
  of_int : Z -> result F;
  math_pi : F;
  mul : F -> F -> F;
  sub : F -> F -> F;
  fabs : F -> F;
  div : F -> F -> result F;
  (** [x ** 3] *)
  pow3 : F -> result F;
  math_sqrt : F -> result F;
  (** [x < y] and [x >= y] *)
  lt : F -> F -> bool;
  ge : F -> F -> bool
}.

(** ** Data model *)

(** One entry of [PLANETS]; [expected_period_days] is a Python [int], the
    other values are floats. *)
Record body (F : Type) : Type := {
  orbit_radius : F;
  orbital_velocity : F;
  expected_period_days : Z;
  inclination : F;
  radius : F;
  mass : F
}.

(** The module-level names.  [PLANETS] is a dict literal; iteration over
    [PLANETS.items()] follows insertion order, so it is kept as the list of
    its items. *)
Record module_globals (F : Type) : Type := {
  G : F;
  M_SUN : F;
  AU : F;
  PLANETS : list (string * body F)
}.

Inductive status : Set := PASS | FAIL.

(** What a call of [print] writes, one entry per call.  [Rule] is the text
    ["=" * 80]; [NewlineRule] is ["\n" + "=" * 80], the first [print] of each
    report and of the closing banner, which comes out as an empty line
    followed by the rule.  The values of a table row are kept as values;
    their rendering by the format specifications is not modelled (each
    specification fits the type of its value: [d] an int, [f] and [e] a
    float, so formatting raises nothing). *)
Inductive line (F : Type) : Type :=
| Rule
| NewlineRule
| Dashes
| Text (s : string)
| ConstantLine (label : string) (value : F)
| PeriodRow (name : string) (calculated : F) (expected : Z) (error : F) (st : status)
| VelocityRow (name : string) (calculated config_value error : F) (st : status)
| DistanceRow (name : string) (orbit_radius_m au expected : F)
| SummaryRow (name : string) (radius_km mass_kg orbit_au inclination_deg : F).

Arguments Rule {F}.
Arguments NewlineRule {F}.
Arguments Dashes {F}.
Arguments Text {F} s.

Record world (F : Type) : Type := {
  globals : module_globals F;
  stdout : list (line F)
}.

(** A call either returns a value or raises, and in both cases leaves a
    world behind. *)
Inductive outcome (F A : Type) : Type :=
| Ok (a : A) (w : world F)
| Raise (e : exn) (w : world F).

Arguments Ok {F A} a w.
Arguments Raise {F A} e w.

Definition M (F A : Type) : Type := world F -> outcome F A.

Definition ret {F A : Type} (a : A) : M F A := fun w => Ok a w.

Definition bind {F A B : Type} (m : M F A) (k : A -> M F B) : M F B :=
  fun w => match m w with
           | Ok a w' => k a w'
           | Raise e w' => Raise e w'
           end.

Declare Scope py_scope.
Delimit Scope py_scope with py.
Notation "x <- m ;; k" := (bind m (fun x => k))
  (at level 61, m at next level, right associativity) : py_scope.
Notation "m ;; k" := (bind m (fun _ => k))
  (at level 61, right associativity) : py_scope.

(** A computation that prints nothing. *)
Definition lift {F A : Type} (r : result A) : M F A :=
  fun w => match r with
           | Val a => Ok a w
           | Exc e => Raise e w
           end.

(** Reading a module-level name. *)
Definition global {F A : Type} (name : module_globals F -> A) : M F A :=
  fun w => Ok (name (globals w)) w.

Definition print {F : Type} (l : line F) : M F unit :=
  fun w => Ok tt {| globals := globals w; stdout := stdout w ++ [l] |}.

(** [for item in items: acc = step(item, acc)] *)
Fixpoint for_each {F A B : Type} (items : list A) (step : A -> B -> M F B) (acc : B) : M F B :=
  match items with
  | [] => ret acc
  | item :: rest => bind (step item acc) (fun acc' => for_each rest step acc')
  end.

Definition world_of {F A : Type} (o : outcome F A) : world F :=
  match o with
  | Ok _ w => w
  | Raise _ w => w
  end.

(** The status column of a printed line, for the lines that have one. *)
Definition line_status {F : Type} (l : line F) : option status :=
  match l with
  | PeriodRow _ _ _ _ st | VelocityRow _ _ _ _ st => Some st
  | _ => None
  end.

(** [d.get(key)] on the items of a dict literal with distinct keys. *)
Fixpoint dict_get {A : Type} (d : list (string * A)) (key : string) : option A :=
  match d with
  | [] => None
  | (k, v) :: rest => if String.eqb k key then Some v else dict_get rest key
  end.

(** The percent error column of a printed line, for the lines that have
    one. *)
Definition line_error {F : Type} (l : line F) : option F :=
  match l with
  | PeriodRow _ _ _ e _ | VelocityRow _ _ _ e _ => Some e
  | _ => None
  end.

(** The body a table line is about. *)
Definition line_name {F : Type} (l : line F) : option string :=
  match l with
  | PeriodRow n _ _ _ _ | VelocityRow n _ _ _ _
  | DistanceRow n _ _ _ | SummaryRow n _ _ _ _ => Some n
  | _ => None
  end.

(** The lines computed for [items] up to the first computation that
    raises, and what that one raised. *)
Fixpoint collect {A B : Type} (f : A -> result B) (items : list A) : list B * option exn :=
  match items with
  | [] => ([], None)
  | item :: rest =>
      match f item with
      | Val b => let (bs, x) := collect f rest in (b :: bs, x)
      | Exc e => ([], Some e)
      end
  end.

(** ** The script *)

Section Script.

Context {F : Type} (A : Arith F).

Local Open Scope Z_scope.
Local Open Scope string_scope.
Local Open Scope result_scope.

Local Notation "x * y" := (mul A x y) : result_scope.
Local Notation "x - y" := (sub A x y) : result_scope.
Local Notation "x / y" := (div A x y) : result_scope.

(** The module body: the constants and the table, each float literal of
    the source by its value m * 10^k. *)
Definition module_init : module_globals F :=
  let f := lit A in
  {| G := f 6674 (-14);
     M_SUN := f 1989 27;
     AU := f 149597870700 0;
     PLANETS :=
       [ ("Mercury", {| orbit_radius := f 57909050000 0;
                        orbital_velocity := f 47362 0;
                        expected_period_days := 88;
                        inclination := f 7005 (-3);
                        radius := f 2439700 0;
                        mass := f 33011 19 |});
         ("Venus",   {| orbit_radius := f 108208000000 0;
                        orbital_velocity := f 35020 0;
                        expected_period_days := 225;
                        inclination := f 3395 (-3);
                        radius := f 6051800 0;
                        mass := f 48675 20 |});
         ("Earth",   {| orbit_radius := f 149597870700 0;
                        orbital_velocity := f 29780 0;
                        expected_period_days := 365;
                        inclination := f 0 0;
                        radius := f 6371000 0;
                        mass := f 5972 21 |});
         ("Mars",    {| orbit_radius := f 227939200000 0;
                        orbital_velocity := f 24077 0;
                        expected_period_days := 687;
                        inclination := f 1850 (-3);
                        radius := f 3389500 0;
                        mass := f 64171 19 |});
         ("Jupiter", {| orbit_radius := f 77857 7;
                        orbital_velocity := f 13070 0;
                        expected_period_days := 4333;
                        inclination := f 1303 (-3);
                        radius := f 69911000 0;
                        mass := f 18982 23 |});
         ("Saturn",  {| orbit_radius := f 143353 7;
                        orbital_velocity := f 9680 0;
                        expected_period_days := 10759;
                        inclination := f 2485 (-3);
                        radius := f 58232000 0;
                        mass := f 56834 22 |});
         ("Uranus",  {| orbit_radius := f 287246 7;
                        orbital_velocity := f 6800 0;
                        expected_period_days := 30687;
                        inclination := f 773 (-3);
                        radius := f 25362000 0;
                        mass := f 86810 21 |});
         ("Neptune", {| orbit_radius := f 449506 7;
                        orbital_velocity := f 5430 0;
                        expected_period_days := 60190;
                        inclination := f 1770 (-3);
                        radius := f 24622000 0;
                        mass := f 102413 21 |}) ] |}.

(** The state in which [main] is entered: the module body has run, and
    [printed] is whatever stands on standard output already. *)
Definition start (printed : list (line F)) : world F :=
  {| globals := module_init; stdout := printed |}.

(** The two formulas print nothing; of the module they read [G] and
    [M_SUN], so they are functions of the module's names [g] as they stand
    at the call.

    [T_seconds = 2 * math.pi * math.sqrt(semi_major_axis_m**3 / (G * M_SUN))]
    [return T_seconds / (24 * 3600)] *)
Definition calculate_orbital_period (g : module_globals F) (semi_major_axis_m : F) : result F :=
  two <- of_int A 2 ;;
  cube <- pow3 A semi_major_axis_m ;;
  ratio <- cube / (G g * M_SUN g) ;;
  root <- math_sqrt A ratio ;;
  let T_seconds := two * math_pi A * root in
  day <- of_int A (24 * 3600)%Z ;;
  T_seconds / day.

(** [return math.sqrt(G * M_SUN / semi_major_axis_m)] *)
Definition calculate_orbital_velocity (g : module_globals F) (semi_major_axis_m : F) : result F :=
  ratio <- (G g * M_SUN g) / semi_major_axis_m ;;
  math_sqrt A ratio.

(** [abs(calculated - reference) / reference * 100] *)
Definition percent_error (calculated reference : F) : result F :=
  quotient <- fabs A (calculated - reference) / reference ;;
  hundred <- of_int A 100 ;;
  Val (quotient * hundred).

(** The threshold [2.0]. *)
Definition threshold : F := lit A 2 0.

(** ["PASS" if error < 2.0 else "FAIL"] *)
Definition status_of (error : F) : status :=
  if lt A error threshold then PASS else FAIL.

(** [if error >= 2.0: all_passed = False] *)
Definition update_all_passed (error : F) (all_passed : bool) : bool :=
  if ge A error threshold then false else all_passed.

(** The percent error of a body's period and of its velocity, as the loop
    bodies below compute them. *)
Definition period_error (g : module_globals F) (data : body F) : result F :=
  calculated <- calculate_orbital_period g (orbit_radius data) ;;
  expected <- of_int A (expected_period_days data) ;;
  percent_error calculated expected.

Definition velocity_error (g : module_globals F) (data : body F) : result F :=
  calculated <- calculate_orbital_velocity g (orbit_radius data) ;;
  percent_error calculated (orbital_velocity data).

(** The local dict [expected_au] of [verify_orbit_distances]. *)
Definition expected_au : list (string * F) :=
  let f := lit A in
  [ ("Mercury", f 387 (-3));
    ("Venus", f 723 (-3));
    ("Earth", f 1000 (-3));
    ("Mars", f 1524 (-3));
    ("Jupiter", f 5204 (-3));
    ("Saturn", f 9583 (-3));
    ("Uranus", f 1919 (-2));
    ("Neptune", f 3007 (-2)) ].

Local Open Scope py_scope.

(** The loop body of [verify_orbital_periods]. *)
Definition period_step (item : string * body F) (all_passed : bool) : M F bool :=
  let (name, data) := item in
  g <- global (fun g => g) ;;
  calculated <- lift (calculate_orbital_period g (orbit_radius data)) ;;
  let expected := expected_period_days data in
  error <- lift (rbind (of_int A expected) (percent_error calculated)) ;;
  let st := status_of error in
  let all_passed := update_all_passed error all_passed in
  print (PeriodRow name calculated expected error st) ;;
  ret all_passed.

Definition verify_orbital_periods : M F bool :=
  print NewlineRule ;;
  print (Text "ORBITAL PERIOD VERIFICATION (Kepler's Third Law)") ;;
  print Rule ;;
  print (Text "Planet | Calculated | Expected | Error | Status") ;;
  print Dashes ;;
  planets <- global (@PLANETS F) ;;
  for_each planets period_step true.

(** The loop body of [verify_orbital_velocities]. *)
Definition velocity_step (item : string * body F) (all_passed : bool) : M F bool :=
  let (name, data) := item in
  g <- global (fun g => g) ;;
  calculated <- lift (calculate_orbital_velocity g (orbit_radius data)) ;;
  let config_value := orbital_velocity data in
  error <- lift (percent_error calculated config_value) ;;
  let st := status_of error in
  let all_passed := update_all_passed error all_passed in
  print (VelocityRow name calculated config_value error st) ;;
  ret all_passed.

Definition verify_orbital_velocities : M F bool :=
  print NewlineRule ;;
  print (Text "ORBITAL VELOCITY VERIFICATION") ;;
  print Rule ;;
  print (Text "Planet | Calculated | Config | Error | Status") ;;
  print Dashes ;;
  planets <- global (@PLANETS F) ;;
  for_each planets velocity_step true.

(** The loop body of [verify_orbit_distances]; [expected_au.get(name, 0)]
    falls back on the int 0, which the format [.3f] converts. *)
Definition distance_step (item : string * body F) (_ : unit) : M F unit :=
  let (name, data) := item in
  unit_au <- global (@AU F) ;;
  au <- lift (div A (orbit_radius data) unit_au) ;;
  expected <- match dict_get expected_au name with
              | Some e => ret e
              | None => lift (of_int A 0)
              end ;;
  print (DistanceRow name (orbit_radius data) au expected).

Definition verify_orbit_distances : M F unit :=
  print NewlineRule ;;
  print (Text "ORBITAL DISTANCE VERIFICATION (in Astronomical Units)") ;;
  print Rule ;;
  print (Text "Planet | Distance (m) | AU | Expected AU") ;;
  print Dashes ;;
  planets <- global (@PLANETS F) ;;
  for_each planets distance_step tt.

(** The loop body of [print_summary]. *)
Definition summary_step (item : string * body F) (_ : unit) : M F unit :=
  let (name, data) := item in
  radius_km <- lift (rbind (of_int A 1000) (div A (radius data))) ;;
  unit_au <- global (@AU F) ;;
  orbit_au <- lift (div A (orbit_radius data) unit_au) ;;
  print (SummaryRow name radius_km (mass data) orbit_au (inclination data)).

Definition print_summary : M F unit :=
  print NewlineRule ;;
  print (Text "SOLAR SYSTEM SUMMARY") ;;
  print Rule ;;
  print (Text "Planet | Radius (km) | Mass (kg) | Orbit (AU) | Incl.") ;;
  print Dashes ;;
  planets <- global (@PLANETS F) ;;
  for_each planets summary_step tt.

(** [main] returns the exit code. *)
Definition main : M F Z :=
  print Rule ;;
  print (Text "ORBITAL MECHANICS VERIFICATION FOR SOLAR SYSTEM SIMULATION") ;;
  print Rule ;;
  g <- global (@G F) ;;
  print (ConstantLine "Gravitational Constant G" g) ;;
  m_sun <- global (@M_SUN F) ;;
  print (ConstantLine "Solar Mass" m_sun) ;;
  unit_au <- global (@AU F) ;;
  print (ConstantLine "Astronomical Unit" unit_au) ;;
  period_ok <- verify_orbital_periods ;;
  velocity_ok <- verify_orbital_velocities ;;
  verify_orbit_distances ;;
  print_summary ;;
  print NewlineRule ;;
  print (Text "VERIFICATION RESULT") ;;
  print Rule ;;
  if andb period_ok velocity_ok
  then print (Text "All orbital parameters are within acceptable error margins (< 2%)") ;; ret 0%Z
  else print (Text "Some orbital parameters have errors exceeding 2%") ;; ret 1%Z.

(** The operations of the script, and what a sequence of calls leaves
    behind (a caller that goes on after an exception included). *)
Inductive operation : Set :=
| VerifyPeriods
| VerifyVelocities
| ReportDistances
| PrintSummary
| Run.

Definition perform (op : operation) (w : world F) : world F :=
  match op with
  | VerifyPeriods => world_of (verify_orbital_periods w)
  | VerifyVelocities => world_of (verify_orbital_velocities w)
  | ReportDistances => world_of (verify_orbit_distances w)
  | PrintSummary => world_of (print_summary w)
  | Run => world_of (main w)
  end.

Definition perform_all (ops : list operation) (w : world F) : world F :=
  fold_left (fun w op => perform op w) ops w.

(** Words of the specification: a percent error was computed and is
    below the threshold; every body of the table passes a check. *)
Definition passes (error : result F) : bool :=
  match error with
  | Val e => lt A e threshold
  | Exc _ => false
  end.

Definition all_below (error_of : module_globals F -> body F -> result F)
    (g : module_globals F) : Prop :=
  forall item, In item (PLANETS g) -> passes (error_of g (snd item)) = true.

(** A result that was computed and is above zero. *)
Definition is_positive (r : result F) : bool :=
  match r with
  | Val x => lt A (lit A 0 0) x
  | Exc _ => false
  end.

(** The arguments of the two square roots for a body. *)
Definition period_radicand (g : module_globals F) (data : body F) : result F :=
  rbind (pow3 A (orbit_radius data))
        (fun cube => div A cube (mul A (G g) (M_SUN g))).

Definition velocity_radicand (g : module_globals F) (data : body F) : result F :=
  div A (mul A (G g) (M_SUN g)) (orbit_radius data).

(** What the checks divide by and take roots of is above zero for a body,
    and both of its percent errors are computed. *)
Definition well_defined (g : module_globals F) (data : body F) : Prop :=
  (0 < expected_period_days data)%Z /\
  is_positive (Val (orbital_velocity data)) = true /\
  is_positive (Val (orbit_radius data)) = true /\
  is_positive (period_radicand g data) = true /\
  is_positive (velocity_radicand g data) = true /\
  (exists e, period_error g data = Val e) /\
  (exists e, velocity_error g data = Val e).

(** Frame and output: a computation keeps the module-level names when the
    world it leaves has the globals it found, and it only appends to
    standard output when a run after [p] was printed is the run from an
    empty output, seen after [p]. *)
Definition keeps_globals {B : Type} (m : M F B) : Prop :=
  forall w, globals (world_of (m w)) = globals w.

(** The outcome [o] of a run that found nothing printed, seen after [p]
    had been printed. *)
Definition after {B : Type} (p : list (line F)) (o : outcome F B) : outcome F B :=
  match o with
  | Ok b w => Ok b {| globals := globals w; stdout := p ++ stdout w |}
  | Raise x w => Raise x {| globals := globals w; stdout := p ++ stdout w |}
  end.

Definition appends {B : Type} (m : M F B) : Prop :=
  forall g p,
    m {| globals := g; stdout := p |} = after p (m {| globals := g; stdout := [] |}).

(** A loop body checks [error_of] when it computes that percent error of
    the body at hand, raises what the computation raises and otherwise
    prints one line and updates [all_passed] by [error >= 2.0]. *)
Definition checks (error_of : module_globals F -> body F -> result F)
    (step : string * body F -> bool -> M F bool) : Prop :=
  forall item acc w,
    match error_of (globals w) (snd item) with
    | Val e => exists l,
        line_status l = Some (status_of e) /\
        step item acc w =
        Ok (update_all_passed e acc)
           {| globals := globals w; stdout := stdout w ++ [l] |}
    | Exc x => step item acc w = Raise x w
    end.

(** What a check over [items], entered with [acc], amounts to: it raises
    exactly what the first failing error computation raises, and otherwise
    returns [acc] cleared by each error that is [>= 2.0]. *)
Definition check_outcome (error_of : module_globals F -> body F -> result F)
    (items : list (string * body F)) (acc : bool) (w : world F)
    (o : outcome F bool) : Prop :=
  match o with
  | Ok b w' =>
      globals w' = globals w /\
      (forall item, In item items ->
         exists e, error_of (globals w) (snd item) = Val e) /\
      (b = true <->
       acc = true /\
       forall item e, In item items ->
         error_of (globals w) (snd item) = Val e -> ge A e threshold = false)
  | Raise x w' =>
      globals w' = globals w /\
      exists item, In item items /\ error_of (globals w) (snd item) = Exc x
  end.

(** The module's names with another table. *)
Definition with_planets (g : module_globals F) (planets : list (string * body F)) :
    module_globals F :=
  {| G := G g; M_SUN := M_SUN g; AU := AU g; PLANETS := planets |}.

(** The line each loop body prints for an item, as a function of the
    module's names: what the body computes before its [print]. *)
Definition period_row (g : module_globals F) (item : string * body F) : result (line F) :=
  let (name, data) := item in
  rbind (calculate_orbital_period g (orbit_radius data)) (fun calculated =>
  rbind (rbind (of_int A (expected_period_days data)) (percent_error calculated)) (fun error =>
  Val (PeriodRow name calculated (expected_period_days data) error (status_of error)))).

Definition velocity_row (g : module_globals F) (item : string * body F) : result (line F) :=
  let (name, data) := item in
  rbind (calculate_orbital_velocity g (orbit_radius data)) (fun calculated =>
  rbind (percent_error calculated (orbital_velocity data)) (fun error =>
  Val (VelocityRow name calculated (orbital_velocity data) error (status_of error)))).

Definition distance_row (g : module_globals F) (item : string * body F) : result (line F) :=
  let (name, data) := item in
  rbind (div A (orbit_radius data) (AU g)) (fun au =>
  rbind (match dict_get expected_au name with
         | Some e => Val e
         | None => of_int A 0
         end) (fun expected =>
  Val (DistanceRow name (orbit_radius data) au expected))).

Definition summary_row (g : module_globals F) (item : string * body F) : result (line F) :=
  let (name, data) := item in
  rbind (rbind (of_int A 1000) (div A (radius data))) (fun radius_km =>
  rbind (div A (orbit_radius data) (AU g)) (fun orbit_au =>
  Val (SummaryRow name radius_km (mass data) orbit_au (inclination data)))).

(** The lines each report prints before its loop. *)
Definition periods_header : list (line F) :=
  [ NewlineRule; Text "ORBITAL PERIOD VERIFICATION (Kepler's Third Law)"; Rule;
    Text "Planet | Calculated | Expected | Error | Status"; Dashes ].

Definition velocities_header : list (line F) :=
  [ NewlineRule; Text "ORBITAL VELOCITY VERIFICATION"; Rule;
    Text "Planet | Calculated | Config | Error | Status"; Dashes ].

Definition distances_header : list (line F) :=
  [ NewlineRule; Text "ORBITAL DISTANCE VERIFICATION (in Astronomical Units)"; Rule;
    Text "Planet | Distance (m) | AU | Expected AU"; Dashes ].

Definition summary_header : list (line F) :=
  [ NewlineRule; Text "SOLAR SYSTEM SUMMARY"; Rule;
    Text "Planet | Radius (km) | Mass (kg) | Orbit (AU) | Incl."; Dashes ].

(** What [main] prints before the first report and after the last. *)
Definition opening_lines (g : module_globals F) : list (line F) :=
  [ Rule; Text "ORBITAL MECHANICS VERIFICATION FOR SOLAR SYSTEM SIMULATION"; Rule;
    ConstantLine "Gravitational Constant G" (G g);
    ConstantLine "Solar Mass" (M_SUN g);
    ConstantLine "Astronomical Unit" (AU g) ].

Definition closing_lines (code : Z) : list (line F) :=
  [ NewlineRule; Text "VERIFICATION RESULT"; Rule;
    Text (if Z.eqb code 0
          then "All orbital parameters are within acceptable error margins (< 2%)"
          else "Some orbital parameters have errors exceeding 2%") ].

(** A line about [item]: it carries the item's name. *)
Definition names (item : string * body F) (l : line F) : Prop :=
  line_name l = Some (fst item).

(** The lines a loop has printed when it stops at the first body whose
    line cannot be computed: those of the bodies before it. *)
Definition lines_before (row : string * body F -> result (line F))
    (items : list (string * body F)) (rows : list (line F)) : Prop :=
  Forall2 (fun item l => row item = Val l) items rows.

(** A printed line leaves [all_passed] alone: it has no error column, or
    its error is not [>= 2.0]. *)
Definition row_ok (l : line F) : bool :=
  match line_error l with
  | Some e => negb (ge A e threshold)
  | None => true
  end.

(** A loop body reports [row] when it prints that line, or raises what
    computing it raises, and updates its accumulator by [upd]. *)
Definition reports {B : Type}
    (row : module_globals F -> string * body F -> result (line F))
    (upd : line F -> B -> B)
    (step : string * body F -> B -> M F B) : Prop :=
  forall item acc w,
    step item acc w =
    match row (globals w) item with
    | Val l => Ok (upd l acc) {| globals := globals w; stdout := stdout w ++ [l] |}
    | Exc x => Raise x w
    end.

(** What a loop over [items] that reports [row] comes to, entered in [w]
    after [header] was printed. *)
Definition report_outcome {B : Type}
    (row : module_globals F -> string * body F -> result (line F))
    (upd : line F -> B -> B) (header : list (line F))
    (items : list (string * body F)) (acc : B) (w : world F) : outcome F B :=
  let (rows, x) := collect (row (globals w)) items in
  let w' := {| globals := globals w; stdout := stdout w ++ header ++ rows |} in
  match x with
  | None => Ok (fold_left (fun a l => upd l a) rows acc) w'
  | Some e => Raise e w'
  end.

Definition clear_if_not_ok (l : line F) (all_passed : bool) : bool :=
  if row_ok l then all_passed else false.

(** A line of a check for [item]: it carries the item's name, a percent
    error and the status of that error. *)
Definition checked_line (item : string * body F) (l : line F) : Prop :=
  line_name l = Some (fst item) /\
  exists e, line_error l = Some e /\ line_status l = Some (status_of e).

End Script.

(** ** Binary64, the arithmetic of Python floats *)

Module B64.

(** The integer [m] as an unrounded binary float. *)
Definition SF_of_Z (m : Z) : spec_float :=
  match m with
  | Z0 => S754_zero false
  | Zpos p => S754_finite false p 0
  | Zneg p => S754_finite true p 0
  end.

(** A decimal literal is read as the nearest binary64 number, ties to the
    even mantissa: one rounding of the integer m * 10^k, or of the
    quotient of the integers m and 10^(-k). *)
Definition lit (m k : Z) : float :=
  match k with
  | Zneg p => SF2Prim (SFdiv prec emax (SF_of_Z m) (SF_of_Z (Z.pow_pos 10 p)))
  | _ => SF2Prim (binary_normalize prec emax (m * 10 ^ k) 0 false)
  end.

(** [float(n)] for an int operand: the nearest float, [OverflowError] when
    that is beyond the largest one. *)
Definition of_int (n : Z) : result float :=
  match binary_normalize prec emax n 0 false with
  | S754_infinity _ => Exc OverflowError
  | x => Val (SF2Prim x)
  end.

(** [math.pi] *)
Definition math_pi : float := 0x1.921fb54442d18p+1%float.

(** [x / y]: Python raises on a zero divisor of either sign. *)
Definition div (x y : float) : result float :=
  if PrimFloat.eqb y 0%float then Exc ZeroDivisionError else Val (PrimFloat.div x y).

(** [x ** 3] calls the C library's [pow(x, 3.0)].  [pow3] is the correctly
    rounded [pow]: the cube of [x] rounded once to the nearest float.  A
    finite [x] whose cube rounds to an infinity raises [OverflowError]; a
    cube that underflows is returned; zeros, infinities and NaN are
    returned as they are.  A C library's [pow] need not round correctly
    and may differ from [pow3] in the last place (it does not at the radii
    of the table, at zeros, infinities, NaN or at the overflow boundary);
    what holds of every radius is stated over [arith_with] below. *)
Definition pow3 (x : float) : result float :=
  match Prim2SF x with
  | S754_finite s m e =>
      match binary_round prec emax s (m * m * m)%positive (3 * e) with
      | S754_infinity _ => Exc OverflowError
      | y => Val (SF2Prim y)
      end
  | _ => Val x
  end.

(** [math.sqrt(x)]: "math domain error" below zero; [-0.0], [inf] and NaN
    pass. *)
Definition math_sqrt (x : float) : result float :=
  if PrimFloat.ltb x 0%float then Exc ValueError else Val (PrimFloat.sqrt x).

Definition arith : Arith float :=
  Build_Arith lit of_int math_pi PrimFloat.mul PrimFloat.sub PrimFloat.abs
    div pow3 math_sqrt PrimFloat.ltb (fun x y => PrimFloat.leb y x).

(** Binary64 with [x ** 3] left to the C library: [cube x] stands for
    whatever [pow(x, 3.0)] yields there, a float within a rounding of the
    cube or the exception Python raises for it.  [arith] is
    [arith_with pow3]. *)
Definition arith_with (cube : float -> result float) : Arith float :=
  Build_Arith lit of_int math_pi PrimFloat.mul PrimFloat.sub PrimFloat.abs
    div cube math_sqrt PrimFloat.ltb (fun x y => PrimFloat.leb y x).

(** The module's names as the script defines them, in binary64. *)
Definition init : module_globals float := module_init arith.

End B64.

(** ** The real numbers, the arithmetic of the formulas *)

Module Exact.

Local Open Scope R_scope.

(** Literals and ints have their exact value, nothing overflows, and the
    two partial operations raise as in Python. *)
Definition lit (m k : Z) : R :=
  match k with
  | Zneg p => IZR m / IZR (Z.pow_pos 10 p)
  | _ => IZR (m * 10 ^ k)
  end.

Definition div (x y : R) : result R :=
  if Req_dec_T y 0 then Exc ZeroDivisionError else Val (x / y).

Definition math_sqrt (x : R) : result R :=
  if Rlt_dec x 0 then Exc ValueError else Val (R_sqrt.sqrt x).

Definition arith : Arith R :=
  Build_Arith lit (fun n => Val (IZR n)) PI Rmult Rminus Rabs
    div (fun x => Val (x ^ 3)) math_sqrt
    (fun x y => if Rlt_dec x y then true else false)
    (fun x y => if Rge_dec x y then true else false).

(** The module's names as the script defines them, over the reals. *)
Definition init : module_globals R := module_init arith.

End Exact.

(** ** Words used about binary64 values *)

(** A float that is not NaN. *)
Definition is_number (x : float) : bool := PrimFloat.eqb x x.

(** Signs: [not_negative] holds of zeros, NaN and what carries a plus
    sign, [above_zero] of the finite numbers and the infinity above zero. *)
Definition not_negative (x : spec_float) : bool :=
  match x with
  | S754_zero _ | S754_nan => true
  | S754_infinity s | S754_finite s _ _ => negb s
  end.

Definition above_zero (x : spec_float) : bool :=
  match x with
  | S754_infinity false | S754_finite false _ _ => true
  | _ => false
  end.


(** A table whose only body has no reference period: [expected_period_days]
    is 0. *)
Definition no_reference : list (string * body float) :=
  [ ("Earth"%string,
     {| orbit_radius := 149597870700%float;
        orbital_velocity := 29780%float;
        expected_period_days := 0;
        inclination := 0%float;
        radius := 6371000%float;
        mass := 5.972e24%float |}) ].

(** Tables whose only body has a zero reference velocity, and a zero
    orbit radius. *)
Definition no_velocity : list (string * body float) :=
  [ ("Earth"%string,
     {| orbit_radius := 149597870700%float;
        orbital_velocity := 0%float;
        expected_period_days := 365;
        inclination := 0%float;
        radius := 6371000%float;
        mass := 5.972e24%float |}) ].

Definition no_radius : list (string * body float) :=
  [ ("Earth"%string,
     {| orbit_radius := 0%float;
        orbital_velocity := 29780%float;
        expected_period_days := 365;
        inclination := 0%float;
        radius := 6371000%float;
        mass := 5.972e24%float |}) ].

(** More signs: [not_positive] holds of zeros, NaN and what carries a
    minus sign, [below_zero] of the finite numbers and the infinity below
    zero. *)
Definition not_positive (x : spec_float) : bool :=
  match x with
  | S754_zero _ | S754_nan => true
  | S754_infinity s | S754_finite s _ _ => s
  end.

Definition below_zero (x : spec_float) : bool :=
  match x with
  | S754_infinity true | S754_finite true _ _ => true
  | _ => false
  end.

(** The lines of the two reports that check nothing, in binary64: what
    [verify_orbit_distances] and [print_summary] print for an item when
    their divisions are defined. *)
Definition b64_distance_line (g : module_globals float) (item : string * body float) :
    line float :=
  DistanceRow (fst item) (orbit_radius (snd item))
    (orbit_radius (snd item) / AU g)%float
    (match dict_get (expected_au B64.arith) (fst item) with
     | Some e => e
     | None => 0%float
     end).

Definition b64_summary_line (g : module_globals float) (item : string * body float) :
    line float :=
  SummaryRow (fst item) (radius (snd item) / 1000)%float (mass (snd item))
    (orbit_radius (snd item) / AU g)%float (inclination (snd item)).

(** What a report that only divides by [AU] comes to in binary64. *)
Definition b64_au_report (header : list (line float))
    (line_of : module_globals float -> string * body float -> line float)
    (w : world float) : outcome float unit :=
  let g := globals w in
  if PrimFloat.eqb (AU g) 0 then
    let w' := {| globals := g; stdout := stdout w ++ header |} in
    match PLANETS g with
    | [] => Ok tt w'
    | _ :: _ => Raise ZeroDivisionError w'
    end
  else
    Ok tt {| globals := g;
             stdout := stdout w ++ header ++ map (line_of g) (PLANETS g) |}.

Unset Implicit Arguments.

(** * Properties *)

(** ** What every arithmetic gives *)

Section ScriptFacts.

Context {F : Type} (A : Arith F).

(** *** Module-level names are only read *)

Lemma keeps_ret {B : Type} (b : B) : keeps_globals (ret b : M F B).
Proof. intro w. reflexivity. Qed.

Lemma keeps_lift {B : Type} (r : result B) : keeps_globals (lift r : M F B).
Proof. intro w. unfold lift. destruct r; reflexivity. Qed.

Lemma keeps_global {B : Type} (name : module_globals F -> B) : keeps_globals (global name).
Proof. intro w. reflexivity. Qed.

Lemma keeps_print (l : line F) : keeps_globals (print l).
Proof. intro w. reflexivity. Qed.

Lemma keeps_bind {B C : Type} (m : M F B) (k : B -> M F C) :
  keeps_globals m -> (forall b, keeps_globals (k b)) -> keeps_globals (bind m k).
Proof.
  intros Hm Hk w. unfold bind.
  specialize (Hm w). destruct (m w) as [b w1 | e w1]; simpl in *.
  - rewrite (Hk b w1). exact Hm.
  - exact Hm.
Qed.

Lemma keeps_for_each {B C : Type} (step : B -> C -> M F C) (items : list B) :
  (forall item acc, keeps_globals (step item acc)) ->
  forall acc, keeps_globals (for_each items step acc).
Proof.
  intros Hstep. induction items as [| item rest IH]; intro acc; simpl.
  - apply keeps_ret.
  - apply keeps_bind; [apply Hstep | exact IH].
Qed.

Ltac frame :=
  repeat first
    [ apply keeps_ret | apply keeps_lift | apply keeps_global | apply keeps_print
    | apply keeps_for_each; intros [? ?] ?
    | apply keeps_bind; [ | intro ]
    | match goal with
      | |- keeps_globals (match ?x with _ => _ end) => destruct x
      end ].

Lemma keeps_verify_orbital_periods : keeps_globals (verify_orbital_periods A).
Proof. unfold verify_orbital_periods, period_step. frame. Qed.

Lemma keeps_verify_orbital_velocities : keeps_globals (verify_orbital_velocities A).
Proof. unfold verify_orbital_velocities, velocity_step. frame. Qed.

Lemma keeps_verify_orbit_distances : keeps_globals (verify_orbit_distances A).
Proof.
  unfold verify_orbit_distances, distance_step. frame.
Qed.

Lemma keeps_print_summary : keeps_globals (print_summary A).
Proof. unfold print_summary, summary_step. frame. Qed.

Lemma keeps_main : keeps_globals (main A).
Proof.
  unfold main. frame.
Qed.

Lemma perform_globals (op : operation) (w : world F) :
  globals (perform A op w) = globals w.
Proof.
  destruct op; simpl.
  - apply keeps_verify_orbital_periods.
  - apply keeps_verify_orbital_velocities.
  - apply keeps_verify_orbit_distances.
  - apply keeps_print_summary.
  - apply keeps_main.
Qed.

Lemma perform_all_globals (ops : list operation) :
  forall w, globals (perform_all A ops w) = globals w.
Proof.
  unfold perform_all.
  induction ops as [| op rest IH]; intro w; simpl.
  - reflexivity.
  - rewrite IH. apply perform_globals.
Qed.

(** *** Standard output is only appended to *)

Lemma after_after {B : Type} (p q : list (line F)) (o : outcome F B) :
  after p (after q o) = after (p ++ q) o.
Proof. destruct o; simpl; rewrite app_assoc; reflexivity. Qed.

Lemma appends_ret {B : Type} (b : B) : appends (ret b : M F B).
Proof. intros g p. simpl. rewrite app_nil_r. reflexivity. Qed.

Lemma appends_lift {B : Type} (r : result B) : appends (lift r : M F B).
Proof. intros g p. destruct r; simpl; rewrite app_nil_r; reflexivity. Qed.

Lemma appends_global {B : Type} (name : module_globals F -> B) : appends (global name).
Proof. intros g p. simpl. rewrite app_nil_r. reflexivity. Qed.

Lemma appends_print (l : line F) : appends (print l).
Proof. intros g p. reflexivity. Qed.

Lemma appends_bind {B C : Type} (m : M F B) (k : B -> M F C) :
  appends m -> (forall b, appends (k b)) -> appends (bind m k).
Proof.
  intros Hm Hk g p. unfold bind. rewrite (Hm g p).
  destruct (m {| globals := g; stdout := [] |}) as [b [g1 s1] | x [g1 s1]]; simpl.
  - rewrite (Hk b g1 (p ++ s1)), (Hk b g1 s1), after_after. reflexivity.
  - reflexivity.
Qed.

Lemma appends_for_each {B C : Type} (step : B -> C -> M F C) (items : list B) :
  (forall item acc, appends (step item acc)) ->
  forall acc, appends (for_each items step acc).
Proof.
  intros Hstep. induction items as [| item rest IH]; intro acc; simpl.
  - apply appends_ret.
  - apply appends_bind; [apply Hstep | exact IH].
Qed.

Ltac append_only :=
  repeat first
    [ apply appends_ret | apply appends_lift | apply appends_global | apply appends_print
    | apply appends_for_each; intros [? ?] ?
    | apply appends_bind; [ | intro ]
    | match goal with
      | |- appends (match ?x with _ => _ end) => destruct x
      end ].

Lemma appends_verify_orbit_distances : appends (verify_orbit_distances A).
Proof. unfold verify_orbit_distances, distance_step. append_only. Qed.

Lemma appends_main : appends (main A).
Proof. unfold main. append_only. Qed.

(** *** The two checks *)

Lemma period_step_checks : checks A (period_error A) (period_step A).
Proof.
  intros [name data] acc w. unfold period_error, period_step. simpl.
  unfold bind, global, lift. simpl.
  destruct (calculate_orbital_period A (globals w) (orbit_radius data)) as [c | x];
    simpl; [ | reflexivity ].
  destruct (of_int A (expected_period_days data)) as [n | x]; simpl; [ | reflexivity ].
  destruct (percent_error A c n) as [e | x]; simpl; [ | reflexivity ].
  eexists. split; [ | reflexivity ]. reflexivity.
Qed.

Lemma velocity_step_checks : checks A (velocity_error A) (velocity_step A).
Proof.
  intros [name data] acc w. unfold velocity_error, velocity_step. simpl.
  unfold bind, global, lift. simpl.
  destruct (calculate_orbital_velocity A (globals w) (orbit_radius data)) as [c | x];
    simpl; [ | reflexivity ].
  destruct (percent_error A c (orbital_velocity data)) as [e | x]; simpl; [ | reflexivity ].
  eexists. split; [ | reflexivity ]. reflexivity.
Qed.

Lemma for_each_checks error_of step (Hstep : checks A error_of step) :
  forall items acc w,
    check_outcome A error_of items acc w (for_each items step acc w).
Proof.
  induction items as [| item rest IH]; intros acc w; simpl.
  - simpl. intuition.
  - unfold bind. specialize (Hstep item acc w).
    destruct (error_of (globals w) (snd item)) as [e | x] eqn:He.
    + destruct Hstep as (l & _ & Hl). rewrite Hl.
      specialize (IH (update_all_passed A e acc)
                     {| globals := globals w; stdout := stdout w ++ [l] |}).
      destruct (for_each rest step _ _) as [b w' | x w']; simpl in *.
      * destruct IH as (Hg & Hval & Hb). split; [exact Hg | split].
        -- intros it [<- | Hin]; [eauto | auto].
        -- rewrite Hb. unfold update_all_passed.
           destruct (ge A e (threshold A)) eqn:Hge; split.
           ++ intros [Hf _]. discriminate.
           ++ intros [_ Hall]. specialize (Hall item e (or_introl eq_refl) He).
              congruence.
           ++ intros [Hacc Hall]. split; [exact Hacc |].
              intros it e' [<- | Hin] He'; [congruence | eauto].
           ++ intros [Hacc Hall]. split; [exact Hacc | eauto].
      * destruct IH as (Hg & it & Hin & Hit). split; [exact Hg |].
        exists it. auto.
    + rewrite Hstep. simpl. split; [reflexivity |]. exists item. auto.
Qed.

Lemma verify_orbital_periods_outcome (w : world F) :
  check_outcome A (period_error A) (PLANETS (globals w)) true w
    (verify_orbital_periods A w).
Proof.
  unfold verify_orbital_periods, bind, print, global. simpl.
  apply (for_each_checks _ _ period_step_checks (PLANETS (globals w)) true
           {| globals := globals w; stdout := _ |}).
Qed.

Lemma verify_orbital_velocities_outcome (w : world F) :
  check_outcome A (velocity_error A) (PLANETS (globals w)) true w
    (verify_orbital_velocities A w).
Proof.
  unfold verify_orbital_velocities, bind, print, global. simpl.
  apply (for_each_checks _ _ velocity_step_checks (PLANETS (globals w)) true
           {| globals := globals w; stdout := _ |}).
Qed.

(** *** The exit code *)

Lemma main_exit_code (w : world F) (code : Z) (w' : world F) :
  main A w = Ok code w' ->
  exists period_ok velocity_ok w0 w1 w2,
    globals w0 = globals w /\
    verify_orbital_periods A w0 = Ok period_ok w1 /\
    verify_orbital_velocities A w1 = Ok velocity_ok w2 /\
    code = (if andb period_ok velocity_ok then 0 else 1)%Z.
Proof.
  unfold main.
  remember (verify_orbital_periods A) as periods eqn:Ep.
  remember (verify_orbital_velocities A) as velocities eqn:Ev.
  remember (verify_orbit_distances A) as distances eqn:Ed.
  remember (print_summary A) as summary eqn:Es.
  unfold bind, print, global, ret. cbn [globals stdout]. intro H.
  match type of H with
  | context [periods ?w0] =>
      destruct (periods w0) as [p w1 | x w1] eqn:Hp; [ | discriminate ];
      destruct (velocities w1) as [v w2 | x w2] eqn:Hv; [ | discriminate ];
      exists p, v, w0, w1, w2
  end.
  destruct (distances w2) as [[] w3 | x w3]; [ | discriminate ].
  destruct (summary w3) as [[] w4 | x w4]; [ | discriminate ].
  split; [reflexivity | split; [exact Hp | split; [exact Hv | ]]].
  destruct (andb p v); cbn in H; injection H as <- _; reflexivity.
Qed.

End ScriptFacts.

(** ** Binary64: comparisons and signs *)

(** The facts below are read off the specification of the primitive floats
    ([FloatAxioms]): every operation is its [spec_float] counterpart. *)

Lemma SFcompare_antisym (x y : spec_float) :
  SFcompare y x = option_map CompOpp (SFcompare x y).
Proof.
  destruct x as [sx | sx | | sx mx ex], y as [sy | sy | | sy my ey];
    simpl; try reflexivity;
    try (destruct sx; reflexivity); try (destruct sy; reflexivity);
    try (destruct sx, sy; reflexivity).
  destruct sx, sy; try reflexivity;
    rewrite (Z.compare_antisym ey ex);
    destruct (ey ?= ex)%Z; simpl; try reflexivity;
    rewrite (eq_sym (Pos.compare_cont_antisym my mx Eq)
             : Pos.compare_cont Eq mx my = CompOpp (Pos.compare_cont Eq my mx));
    destruct (Pos.compare_cont Eq my mx); reflexivity.
Qed.

Lemma is_number_compare (x y : float) :
  is_number x = true -> is_number y = true ->
  exists c, SFcompare (Prim2SF x) (Prim2SF y) = Some c.
Proof.
  unfold is_number. rewrite !eqb_spec. unfold SFeqb.
  destruct (Prim2SF x) as [sx | sx | | sx mx ex], (Prim2SF y) as [sy | sy | | sy my ey];
    simpl; intros Hx Hy; try discriminate; eauto.
Qed.

(** For numbers, [x < y] is the negation of [x >= y]. *)
Lemma ltb_negb_geb (x y : float) :
  is_number x = true -> is_number y = true ->
  PrimFloat.ltb x y = negb (PrimFloat.leb y x).
Proof.
  intros Hx Hy. destruct (is_number_compare x y Hx Hy) as [c Hc].
  rewrite ltb_spec, leb_spec. unfold SFltb, SFleb.
  rewrite (SFcompare_antisym (Prim2SF x) (Prim2SF y)), Hc.
  destruct c; reflexivity.
Qed.


Lemma binary_round_aux_sign (m e : Z) (l : location) :
  not_negative (binary_round_aux prec emax false m e l) = true.
Proof.
  unfold binary_round_aux.
  destruct (shr_fexp prec emax m e l) as [mrs1 e1].
  destruct (shr_fexp prec emax _ e1 loc_Exact) as [mrs2 e2].
  destruct (shr_m mrs2); [reflexivity | | reflexivity].
  destruct (Z.leb e2 (emax - prec)); reflexivity.
Qed.

Lemma binary_round_sign (m : positive) (e : Z) :
  not_negative (binary_round prec emax false m e) = true.
Proof.
  unfold binary_round.
  destruct (shl_align m e _) as [mz ez]. apply binary_round_aux_sign.
Qed.

Lemma SFdiv_sign (x y : spec_float) :
  not_negative x = true -> above_zero y = true ->
  not_negative (SFdiv prec emax x y) = true.
Proof.
  destruct x as [sx | sx | | sx mx ex], y as [sy | [ | ] | | [ | ] my ey];
    simpl; intros Hx Hy; try discriminate; try reflexivity;
    try (destruct sx; try discriminate; reflexivity).
  destruct sx; [discriminate |].
  destruct (SFdiv_core_binary prec emax (Z.pos mx) ex (Z.pos my) ey) as [[mz ez] lz].
  apply binary_round_aux_sign.
Qed.

Lemma SFldexp_sign (x : spec_float) (e : Z) :
  not_negative x = true -> not_negative (SFldexp prec emax x e) = true.
Proof.
  destruct x as [sx | sx | | [ | ] mx ex]; simpl; intro Hx;
    try assumption; try discriminate.
  apply binary_round_sign.
Qed.

(** Reading back a float built from a [spec_float] that is not negative. *)
Lemma SF2Prim_sign (y : spec_float) :
  not_negative y = true -> not_negative (Prim2SF (SF2Prim y)) = true.
Proof.
  destruct y as [[ | ] | [ | ] | | [ | ] m e]; simpl; intro Hy;
    try discriminate; try reflexivity.
  rewrite Z_ldexp_spec. apply SFldexp_sign.
  rewrite of_uint63_spec.
  match goal with
  | |- context [Uint63Axioms.to_Z ?n] =>
      destruct (Uint63.to_Z_bounded n) as [Hlo _];
      destruct (Uint63Axioms.to_Z n) as [ | p | p ]; simpl
  end.
  - reflexivity.
  - apply binary_round_sign.
  - exfalso. apply Hlo. reflexivity.
Qed.

Lemma ltb_zero_above_zero (x : float) :
  PrimFloat.ltb 0 x = true -> above_zero (Prim2SF x) = true.
Proof.
  rewrite ltb_spec. unfold SFltb. change (Prim2SF 0) with (S754_zero false).
  destruct (Prim2SF x) as [s | [ | ] | | [ | ] m e]; simpl; intro H;
    try discriminate; reflexivity.
Qed.

Lemma above_zero_not_zero (x : float) :
  above_zero (Prim2SF x) = true -> PrimFloat.eqb x 0 = false.
Proof.
  rewrite eqb_spec. unfold SFeqb. change (Prim2SF 0) with (S754_zero false).
  destruct (Prim2SF x) as [s | [ | ] | | [ | ] m e]; simpl; intro H;
    try discriminate; reflexivity.
Qed.

Lemma not_negative_not_below_zero (x : float) :
  not_negative (Prim2SF x) = true -> PrimFloat.ltb x 0 = false.
Proof.
  rewrite ltb_spec. unfold SFltb. change (Prim2SF 0) with (S754_zero false).
  destruct (Prim2SF x) as [s | [ | ] | | [ | ] m e]; simpl; intro H;
    try discriminate; reflexivity.
Qed.

(** The cube of a positive float is not negative. *)
Lemma pow3_sign (x c : float) :
  above_zero (Prim2SF x) = true -> B64.pow3 x = Val c ->
  not_negative (Prim2SF c) = true.
Proof.
  unfold B64.pow3. intros Hx.
  destruct (Prim2SF x) as [s | [ | ] | | [ | ] m e] eqn:Ex; simpl in Hx;
    try discriminate.
  - intros [= <-]. rewrite Ex. reflexivity.
  - pose proof (binary_round_sign (m * m * m) (3 * e)) as Hr.
    destruct (binary_round prec emax false (m * m * m) (3 * e)) eqn:Er;
      intros [= <-]; exact (SF2Prim_sign _ Hr).
Qed.

(** ** Exact arithmetic: the two formulas over the reals *)

Section ExactFacts.

Local Open Scope R_scope.

Lemma exact_div (x y : R) : y <> 0 -> div Exact.arith x y = Val (x / y).
Proof.
  intro Hy. cbn. unfold Exact.div.
  destruct (Req_dec_T y 0) as [E | _]; [contradiction | reflexivity].
Qed.

Lemma exact_sqrt (x : R) :
  0 <= x -> math_sqrt Exact.arith x = Val (R_sqrt.sqrt x).
Proof.
  intro Hx. cbn. unfold Exact.math_sqrt.
  destruct (Rlt_dec x 0) as [E | _]; [lra | reflexivity].
Qed.

(** The two constants, as the module body defines them. *)
Lemma G_exact : G Exact.init = 6674 / 10 ^ 14.
Proof.
  cbn [G Exact.init module_init lit Exact.arith Exact.lit].
  rewrite pow_IZR. reflexivity.
Qed.

Lemma M_SUN_exact : M_SUN Exact.init = 1989 * 10 ^ 27.
Proof.
  cbn [M_SUN Exact.init module_init lit Exact.arith Exact.lit].
  rewrite pow_IZR, <- mult_IZR. reflexivity.
Qed.

Lemma GM_positive : 0 < G Exact.init * M_SUN Exact.init.
Proof.
  rewrite G_exact, M_SUN_exact.
  assert (H : 0 < 10) by lra.
  pose proof (pow_lt 10 14 H). pose proof (pow_lt 10 27 H).
  apply Rmult_lt_0_compat.
  - apply Rdiv_lt_0_compat; [lra | assumption].
  - apply Rmult_lt_0_compat; [lra | assumption].
Qed.

Lemma cube_over_GM_positive (a : R) : 0 < a -> 0 < a ^ 3 / (G Exact.init * M_SUN Exact.init).
Proof.
  intro Ha. apply Rdiv_lt_0_compat; [apply pow_lt; exact Ha | apply GM_positive].
Qed.

Lemma GM_over_positive (a : R) : 0 < a -> 0 < G Exact.init * M_SUN Exact.init / a.
Proof.
  intro Ha. apply Rdiv_lt_0_compat; [apply GM_positive | exact Ha].
Qed.

Lemma exact_period (a : R) :
  0 < a ->
  calculate_orbital_period Exact.arith Exact.init a =
  Val (2 * PI * R_sqrt.sqrt (a ^ 3 / (G Exact.init * M_SUN Exact.init)) / 86400).
Proof.
  intro Ha. unfold calculate_orbital_period.
  change (of_int Exact.arith 2) with (Val (A := R) 2).
  change (pow3 Exact.arith a) with (Val (a ^ 3)).
  change (of_int Exact.arith (24 * 3600)) with (Val (A := R) 86400).
  change (mul Exact.arith) with Rmult.
  change (math_pi Exact.arith) with PI.
  cbn [rbind].
  pose proof GM_positive as Hgm.
  pose proof (cube_over_GM_positive a Ha) as Hq.
  rewrite exact_div by lra. cbn [rbind].
  rewrite exact_sqrt by lra. cbn [rbind].
  apply exact_div. lra.
Qed.

Lemma exact_velocity (a : R) :
  0 < a ->
  calculate_orbital_velocity Exact.arith Exact.init a =
  Val (R_sqrt.sqrt (G Exact.init * M_SUN Exact.init / a)).
Proof.
  intro Ha. unfold calculate_orbital_velocity.
  change (mul Exact.arith) with Rmult.
  pose proof (GM_over_positive a Ha) as Hq.
  rewrite exact_div by lra. cbn [rbind].
  apply exact_sqrt. lra.
Qed.




End ExactFacts.

(** * The claims *)

(** ** C8: nothing mutates the table or the constants *)

(** C8.  Whatever sequence of [verify_orbital_periods],
    [verify_orbital_velocities], [verify_orbit_distances], [print_summary]
    and [main] is performed after the module body has run, in either
    arithmetic, [G], [M_SUN], [AU] and every field of every entry of
    [PLANETS] have the value the module body gave them. *)
Theorem C8_globals_never_mutated (F : Type) (A : Arith F)
    (ops : list operation) (printed : list (line F)) :
  let w := perform_all A ops (start A printed) in
  globals w = module_init A /\
  G (globals w) = G (module_init A) /\
  M_SUN (globals w) = M_SUN (module_init A) /\
  AU (globals w) = AU (module_init A) /\
  PLANETS (globals w) = PLANETS (module_init A).
Proof.
  intro w. assert (H : globals w = module_init A).
  { unfold w. rewrite perform_all_globals. reflexivity. }
  rewrite H. repeat split; reflexivity.
Qed.

(** ** C3: the exit code *)

(** C3.  When [main] returns, its exit code is 0 if both
    [verify_orbital_periods] and [verify_orbital_velocities] returned true
    and 1 otherwise; it is a function of those two results alone, which
    are computed before [verify_orbit_distances] and [print_summary] run.
    In particular one body whose period or velocity error is [>= 2.0]
    makes it 1. *)
Theorem C3_exit_code (F : Type) (A : Arith F) (w : world F) (code : Z) (w' : world F) :
  main A w = Ok code w' ->
  exists period_ok velocity_ok w0 w1 w2,
    globals w0 = globals w /\
    verify_orbital_periods A w0 = Ok period_ok w1 /\
    verify_orbital_velocities A w1 = Ok velocity_ok w2 /\
    code = (if andb period_ok velocity_ok then 0 else 1)%Z /\
    (code = 0%Z <-> period_ok = true /\ velocity_ok = true) /\
    (code = 1%Z <-> period_ok = false \/ velocity_ok = false) /\
    (forall item e,
        In item (PLANETS (globals w)) ->
        period_error A (globals w) (snd item) = Val e \/
        velocity_error A (globals w) (snd item) = Val e ->
        ge A e (threshold A) = true ->
        code = 1%Z).
Proof.
  intro Hmain.
  destruct (main_exit_code A w code w' Hmain)
    as (p & v & w0 & w1 & w2 & Hg & Hp & Hv & Hcode).
  exists p, v, w0, w1, w2.
  assert (Hg1 : globals w1 = globals w).
  { pose proof (keeps_verify_orbital_periods A w0) as K.
    rewrite Hp in K. simpl in K. congruence. }
  do 4 (split; [assumption | ]).
  split; [ | split ].
  - subst code. destruct p, v; simpl; intuition congruence.
  - subst code. destruct p, v; simpl; intuition congruence.
  - intros item e Hin Herr Hge.
    pose proof (verify_orbital_periods_outcome A w0) as Op.
    pose proof (verify_orbital_velocities_outcome A w1) as Ov.
    rewrite Hp in Op. rewrite Hv in Ov. simpl in Op, Ov.
    rewrite Hg in Op. rewrite Hg1 in Ov.
    destruct Op as (_ & _ & Op). destruct Ov as (_ & _ & Ov).
    subst code. destruct Herr as [Herr | Herr].
    + destruct p; [ | reflexivity ].
      destruct Op as [Op _]. destruct (Op eq_refl) as [_ Hall].
      specialize (Hall item e Hin Herr). congruence.
    + destruct v; [ | destruct p; reflexivity ].
      destruct Ov as [Ov _]. destruct (Ov eq_refl) as [_ Hall].
      specialize (Hall item e Hin Herr). congruence.
Qed.

(** ** C1: the table is within 2 % *)

(** C1, as amended.  In binary64, each of the eight bodies of the table has
    a period error and a velocity error strictly below 2.0; for Earth
    (radius 149597870700 m) the period is 365.2109... days, between 365.21
    and 365.22. *)
Theorem C1_table_within_two_percent :
  List.length (PLANETS B64.init) = 8%nat /\
  all_below B64.arith (period_error B64.arith) B64.init /\
  all_below B64.arith (velocity_error B64.arith) B64.init /\
  exists T : float,
    calculate_orbital_period B64.arith B64.init 149597870700%float = Val T /\
    T = 365.21091708586863%float /\
    (365.21 <? T)%float = true /\
    (T <? 365.22)%float = true.
Proof.
  split; [reflexivity | ].
  assert (H : forallb (fun item =>
                passes B64.arith (period_error B64.arith B64.init (snd item)) &&
                passes B64.arith (velocity_error B64.arith B64.init (snd item)))
              (PLANETS B64.init) = true) by (vm_compute; reflexivity).
  rewrite forallb_forall in H.
  split; [ | split ].
  - intros item Hin. destruct (andb_prop _ _ (H item Hin)). assumption.
  - intros item Hin. destruct (andb_prop _ _ (H item Hin)). assumption.
  - eexists. split; [vm_compute; reflexivity | ].
    repeat split; vm_compute; reflexivity.
Qed.

(** C1 as stated fails on its Earth figure: the computed period is more
    than 0.04 days away from 365.26, so it does not round to 365.26 (nor
    to 365.3). *)
Lemma C1_earth_period_not_365_26 :
  exists T : float,
    calculate_orbital_period B64.arith B64.init 149597870700%float = Val T /\
    (abs (T - 365.26) <? 0.005)%float = false /\
    (0.04 <? abs (T - 365.26))%float = true /\
    (T <? 365.22)%float = true.
Proof.
  eexists. split; [vm_compute; reflexivity | ].
  repeat split; vm_compute; reflexivity.
Qed.

(** ** C6: Earth is at one astronomical unit *)

(** C6.  Earth's [orbit_radius] is the float [AU], their quotient is
    exactly 1.0, and that is the AU value of the Earth line that
    [verify_orbit_distances] prints, next to the expected 1.000. *)
Theorem C6_earth_is_one_au :
  exists earth,
    dict_get (PLANETS B64.init) "Earth" = Some earth /\
    orbit_radius earth = AU B64.init /\
    div B64.arith (orbit_radius earth) (AU B64.init) = Val 1%float /\
    forall printed,
      In (DistanceRow "Earth" (AU B64.init) 1%float 1%float)
         (stdout (world_of (verify_orbit_distances B64.arith (start B64.arith printed)))).
Proof.
  eexists. split; [reflexivity | ].
  split; [vm_compute; reflexivity | ].
  split; [vm_compute; reflexivity | ].
  intro printed.
  change (start B64.arith printed) with {| globals := B64.init; stdout := printed |}.
  rewrite (appends_verify_orbit_distances B64.arith B64.init printed).
  match goal with
  | |- context [after _ ?o] =>
      let v := eval vm_compute in o in change o with v
  end.
  cbn [after world_of stdout]. apply in_or_app. right.
  vm_compute. tauto.
Qed.

(** ** C9: divisors and radicands are above zero *)

(** C9.  For each of the eight bodies, in binary64: [expected_period_days],
    [orbital_velocity] and [orbit_radius] are above zero, so are the
    arguments of both square roots, and both percent errors are computed
    (no division by zero, no root of a negative number). *)
Theorem C9_table_well_defined :
  List.length (PLANETS B64.init) = 8%nat /\
  Forall (fun item => well_defined B64.arith B64.init (snd item)) (PLANETS B64.init).
Proof.
  split; [reflexivity | ].
  repeat (apply Forall_cons || apply Forall_nil);
    (split; [reflexivity | ]);
    do 4 (split; [vm_compute; reflexivity | ]);
    split; eexists; vm_compute; reflexivity.
Qed.

(** ** C7: the program completes *)


(** ** C2: a check returns true iff every error is below 2.0 *)

Lemma b64_threshold : threshold B64.arith = 2%float.
Proof. reflexivity. Qed.



(** Why the errors must be numbers: against a reference velocity of
    infinity the percent error is NaN, which is neither [< 2.0] nor
    [>= 2.0]; the line is a FAIL and [all_passed] is left as it was.  No
    entry of the script's table is of this kind. *)
Remark nan_error_is_fail_and_not_counted :
  let data :=
    {| orbit_radius := 149597870700; orbital_velocity := infinity;
       expected_period_days := 365; inclination := 0;
       radius := 6371000; mass := 5.972e24 |}%float in
  exists e : float,
    velocity_error B64.arith B64.init data = Val e /\
    is_number e = false /\
    status_of B64.arith e = FAIL /\
    update_all_passed B64.arith e true = true.
Proof.
  eexists. split; [vm_compute; reflexivity | ].
  repeat split; vm_compute; reflexivity.
Qed.

(** ** C4, C5: the two formulas *)

Lemma b64_div_defined (x y : float) :
  above_zero (Prim2SF y) = true -> B64.div x y = Val (x / y)%float.
Proof.
  intro Hy. unfold B64.div. rewrite (above_zero_not_zero y Hy). reflexivity.
Qed.

Lemma b64_sqrt_quotient (x y : float) :
  not_negative (Prim2SF x) = true -> above_zero (Prim2SF y) = true ->
  B64.math_sqrt (x / y) = Val (PrimFloat.sqrt (x / y)).
Proof.
  intros Hx Hy. unfold B64.math_sqrt.
  rewrite not_negative_not_below_zero; [reflexivity | ].
  rewrite div_spec. apply SFdiv_sign; assumption.
Qed.

(** The module body in binary64 is the table of the source, read as float
    literals. *)
Lemma b64_module_literals :
  B64.init =
  {| G := 6.674e-11;
     M_SUN := 1.989e30;
     AU := 149597870700.0;
     PLANETS :=
       [ ("Mercury"%string,
          {| orbit_radius := 57909050000.0; orbital_velocity := 47362.0;
             expected_period_days := 88; inclination := 7.005;
             radius := 2439700.0; mass := 3.3011e23 |});
         ("Venus"%string,
          {| orbit_radius := 108208000000.0; orbital_velocity := 35020.0;
             expected_period_days := 225; inclination := 3.395;
             radius := 6051800.0; mass := 4.8675e24 |});
         ("Earth"%string,
          {| orbit_radius := 149597870700.0; orbital_velocity := 29780.0;
             expected_period_days := 365; inclination := 0.0;
             radius := 6371000.0; mass := 5.972e24 |});
         ("Mars"%string,
          {| orbit_radius := 227939200000.0; orbital_velocity := 24077.0;
             expected_period_days := 687; inclination := 1.850;
             radius := 3389500.0; mass := 6.4171e23 |});
         ("Jupiter"%string,
          {| orbit_radius := 778.57e9; orbital_velocity := 13070.0;
             expected_period_days := 4333; inclination := 1.303;
             radius := 69911000.0; mass := 1.8982e27 |});
         ("Saturn"%string,
          {| orbit_radius := 1433.53e9; orbital_velocity := 9680.0;
             expected_period_days := 10759; inclination := 2.485;
             radius := 58232000.0; mass := 5.6834e26 |});
         ("Uranus"%string,
          {| orbit_radius := 2872.46e9; orbital_velocity := 6800.0;
             expected_period_days := 30687; inclination := 0.773;
             radius := 25362000.0; mass := 8.6810e25 |});
         ("Neptune"%string,
          {| orbit_radius := 4495.06e9; orbital_velocity := 5430.0;
             expected_period_days := 60190; inclination := 1.770;
             radius := 24622000.0; mass := 1.02413e26 |}) ] |}%float.
Proof. vm_compute. reflexivity. Qed.

Lemma b64_constants :
  G B64.init = 6.674e-11%float /\
  M_SUN B64.init = 1.989e30%float /\
  AU B64.init = 149597870700%float /\
  math_pi B64.arith = 3.141592653589793%float.
Proof. repeat split; vm_compute; reflexivity. Qed.

(** What is not below zero is not negative. *)
Lemma not_below_zero_not_negative (c : float) :
  PrimFloat.ltb c 0 = false -> not_negative (Prim2SF c) = true.
Proof.
  rewrite ltb_spec. unfold SFltb. change (Prim2SF 0) with (S754_zero false).
  destruct (Prim2SF c) as [s | [ | ] | | [ | ] m e]; simpl; intro H;
    try discriminate; reflexivity.
Qed.

(** The period with [x ** 3] left open: whenever the cube is not below
    zero, the divisions and the square root raise nothing, and what the
    cube raises is what the call raises. *)
Lemma b64_period_with (cube : float -> result float) (x : float) :
  (forall c, cube x = Val c -> PrimFloat.ltb c 0 = false) ->
  calculate_orbital_period (B64.arith_with cube) B64.init x =
  match cube x with
  | Val c =>
      Val (2 * 3.141592653589793 * PrimFloat.sqrt (c / (6.674e-11 * 1.989e30))
           / 86400)%float
  | Exc e => Exc e
  end.
Proof.
  intro Hsign. unfold calculate_orbital_period.
  change (of_int (B64.arith_with cube) 2) with (Val 2%float).
  change (of_int (B64.arith_with cube) (24 * 3600)) with (Val 86400%float).
  change (mul (B64.arith_with cube)) with PrimFloat.mul.
  change (math_pi (B64.arith_with cube)) with 3.141592653589793%float.
  change (div (B64.arith_with cube)) with B64.div.
  change (math_sqrt (B64.arith_with cube)) with B64.math_sqrt.
  change (G B64.init) with 6.674e-11%float.
  change (M_SUN B64.init) with 1.989e30%float.
  cbn [rbind pow3 B64.arith_with].
  destruct (cube x) as [c | e] eqn:Hc; cbn [rbind]; [ | reflexivity ].
  pose proof (not_below_zero_not_negative c (Hsign c eq_refl)) as Hs.
  rewrite b64_div_defined by (vm_compute; reflexivity). cbn [rbind].
  rewrite b64_sqrt_quotient by (assumption || (vm_compute; reflexivity)).
  cbn [rbind]. apply b64_div_defined. vm_compute. reflexivity.
Qed.

Lemma b64_velocity (x : float) :
  PrimFloat.ltb 0 x = true ->
  calculate_orbital_velocity B64.arith B64.init x =
  Val (PrimFloat.sqrt (6.674e-11 * 1.989e30 / x))%float.
Proof.
  intro Hx. unfold calculate_orbital_velocity.
  change (mul B64.arith) with PrimFloat.mul.
  change (div B64.arith) with B64.div.
  change (math_sqrt B64.arith) with B64.math_sqrt.
  change (G B64.init) with 6.674e-11%float.
  change (M_SUN B64.init) with 1.989e30%float.
  pose proof (ltb_zero_above_zero x Hx) as Hs.
  rewrite b64_div_defined by assumption. cbn [rbind].
  apply b64_sqrt_quotient; [vm_compute; reflexivity | assumption].
Qed.

(** C4, as amended.  With G = 6.674e-11 and M_SUN = 1.989e30:
    over the reals, for every a > 0, [calculate_orbital_period] returns
    2 * pi * sqrt(a^3 / (G * M_SUN)) / 86400; in binary64, for every float
    x > 0 and whatever [x ** 3] yields (a power of a base above zero is
    not below zero), it returns 2 * pi * sqrt(c / (G * M_SUN)) / 86400
    evaluated in floats when [x ** 3] is the float c, and raises what
    [x ** 3] raises otherwise. *)
Theorem C4_period_formula (a : R) (x : float) (cube : float -> result float) :
  (0 < a)%R -> PrimFloat.ltb 0 x = true ->
  (forall y c, PrimFloat.ltb 0 y = true -> cube y = Val c -> PrimFloat.ltb c 0 = false) ->
  (G Exact.init = 6674 / 10 ^ 14 /\
   M_SUN Exact.init = 1989 * 10 ^ 27 /\
   calculate_orbital_period Exact.arith Exact.init a =
   Val (2 * PI *
        R_sqrt.sqrt (a ^ 3 / (G Exact.init * M_SUN Exact.init))
        / 86400))%R /\
  (G B64.init = 6.674e-11 /\
   M_SUN B64.init = 1.989e30 /\
   calculate_orbital_period (B64.arith_with cube) B64.init x =
   match cube x with
   | Val c =>
       Val (2 * 3.141592653589793 * PrimFloat.sqrt (c / (6.674e-11 * 1.989e30))
            / 86400)
   | Exc e => Exc e
   end)%float.
Proof.
  intros Ha Hx Hsign. split.
  - split; [apply G_exact | split; [apply M_SUN_exact | apply exact_period; exact Ha]].
  - split; [apply b64_constants | split; [apply b64_constants | ]].
    apply b64_period_with. intros c Hc. exact (Hsign x c Hx Hc).
Qed.

(** C4 as stated fails in binary64: the float 1e103 is above zero and its
    cube is beyond the largest float, so [x ** 3] raises [OverflowError];
    over the reals the formula has a value there. *)
Lemma C4_period_overflows :
  PrimFloat.ltb 0 1e103 = true /\
  calculate_orbital_period B64.arith B64.init 1e103%float =
  Exc OverflowError.
Proof. split; vm_compute; reflexivity. Qed.

(** C5.  For every a > 0, [calculate_orbital_velocity] returns
    sqrt(G * M_SUN / a): over the reals, and in binary64 (where no float
    above zero makes it raise). *)
Theorem C5_velocity_formula (a : R) (x : float) :
  (0 < a)%R -> PrimFloat.ltb 0 x = true ->
  calculate_orbital_velocity Exact.arith Exact.init a =
  Val (R_sqrt.sqrt (G Exact.init * M_SUN Exact.init / a))%R /\
  calculate_orbital_velocity B64.arith B64.init x =
  Val (PrimFloat.sqrt (G B64.init * M_SUN B64.init / x))%float.
Proof.
  intros Ha Hx. split; [apply exact_velocity; exact Ha | apply b64_velocity; exact Hx].
Qed.

(** ** C10: velocity times period is the circumference *)



(** ** The theorems at concrete inputs *)



(** C3 on the run of the script: the exit code is 0. *)
Lemma C3_on_the_run :
  let w := start B64.arith [] in
  exists period_ok velocity_ok w0 w1 w2,
    globals w0 = globals w /\
    verify_orbital_periods B64.arith w0 = Ok period_ok w1 /\
    verify_orbital_velocities B64.arith w1 = Ok velocity_ok w2 /\
    0%Z = (if andb period_ok velocity_ok then 0 else 1)%Z /\
    (0%Z = 0%Z <-> period_ok = true /\ velocity_ok = true) /\
    (0%Z = 1%Z <-> period_ok = false \/ velocity_ok = false) /\
    (forall item e,
        In item (PLANETS (globals w)) ->
        period_error B64.arith (globals w) (snd item) = Val e \/
        velocity_error B64.arith (globals w) (snd item) = Val e ->
        ge B64.arith e (threshold B64.arith) = true ->
        0%Z = 1%Z).
Proof.
  intro w.
  apply (C3_exit_code float B64.arith w 0%Z (world_of (main B64.arith w))).
  vm_compute. reflexivity.
Defined.

(** C4 at Earth's radius. *)
Lemma C4_at_earth_radius :
  (G Exact.init = 6674 / 10 ^ 14 /\
   M_SUN Exact.init = 1989 * 10 ^ 27 /\
   calculate_orbital_period Exact.arith Exact.init 149597870700 =
   Val (2 * PI *
        R_sqrt.sqrt (149597870700 ^ 3 /
                     (G Exact.init * M_SUN Exact.init))
        / 86400))%R /\
  (G B64.init = 6.674e-11 /\
   M_SUN B64.init = 1.989e30 /\
   calculate_orbital_period (B64.arith_with B64.pow3) B64.init 149597870700 =
   match B64.pow3 149597870700 with
   | Val c =>
       Val (2 * 3.141592653589793 * PrimFloat.sqrt (c / (6.674e-11 * 1.989e30))
            / 86400)
   | Exc e => Exc e
   end)%float.
Proof.
  apply (C4_period_formula 149597870700%R 149597870700%float B64.pow3).
  - lra.
  - reflexivity.
  - intros y c Hy Hc. apply not_negative_not_below_zero.
    exact (pow3_sign y c (ltb_zero_above_zero y Hy) Hc).
Defined.

(** C5 at Earth's radius. *)
Lemma C5_at_earth_radius :
  calculate_orbital_velocity Exact.arith Exact.init 149597870700%R =
  Val (R_sqrt.sqrt (G Exact.init * M_SUN Exact.init
                    / 149597870700))%R /\
  calculate_orbital_velocity B64.arith B64.init 149597870700%float =
  Val (PrimFloat.sqrt (G B64.init * M_SUN B64.init
                       / 149597870700))%float.
Proof.
  apply (C5_velocity_formula 149597870700%R 149597870700%float).
  - lra.
  - reflexivity.
Defined.


(** * Further properties of the script *)

(** ** Each report is its header and one line per body *)

Section ReportFacts.

Context {F : Type} (A : Arith F).

Lemma world_eta (w : world F) :
  {| globals := globals w; stdout := stdout w |} = w.
Proof. destruct w. reflexivity. Qed.

Lemma for_each_reports {B : Type}
    (row : module_globals F -> string * body F -> result (line F))
    (upd : line F -> B -> B) (step : string * body F -> B -> M F B) :
  reports row upd step ->
  forall items acc w,
    for_each items step acc w = report_outcome row upd [] items acc w.
Proof.
  intros Hstep. induction items as [| item rest IH]; intros acc w.
  - unfold report_outcome. simpl. rewrite app_nil_r, world_eta. reflexivity.
  - simpl. unfold bind. rewrite Hstep. unfold report_outcome. simpl.
    destruct (row (globals w) item) as [l | x].
    + rewrite IH. unfold report_outcome. simpl.
      destruct (collect (row (globals w)) rest) as [rows [x | ]];
        simpl; rewrite <- app_assoc; reflexivity.
    + simpl. rewrite app_nil_r, world_eta. reflexivity.
Qed.

Lemma period_step_reports :
  reports (period_row A) (clear_if_not_ok A) (period_step A).
Proof.
  intros [name data] acc w. unfold period_step, period_row, bind, global, lift. simpl.
  destruct (calculate_orbital_period A (globals w) (orbit_radius data)) as [c | x];
    simpl; [ | reflexivity ].
  destruct (of_int A (expected_period_days data)) as [n | x]; simpl; [ | reflexivity ].
  destruct (percent_error A c n) as [e | x]; simpl; [ | reflexivity ].
  unfold print, ret, clear_if_not_ok, row_ok, update_all_passed. simpl.
  destruct (ge A e (threshold A)); reflexivity.
Qed.

Lemma velocity_step_reports :
  reports (velocity_row A) (clear_if_not_ok A) (velocity_step A).
Proof.
  intros [name data] acc w. unfold velocity_step, velocity_row, bind, global, lift. simpl.
  destruct (calculate_orbital_velocity A (globals w) (orbit_radius data)) as [c | x];
    simpl; [ | reflexivity ].
  destruct (percent_error A c (orbital_velocity data)) as [e | x]; simpl; [ | reflexivity ].
  unfold print, ret, clear_if_not_ok, row_ok, update_all_passed. simpl.
  destruct (ge A e (threshold A)); reflexivity.
Qed.

Lemma distance_step_reports :
  reports (distance_row A) (fun _ u => u) (distance_step A).
Proof.
  intros [name data] [] w.
  unfold distance_step, distance_row, bind, global, lift, rbind, ret, print.
  cbv beta iota.
  destruct (div A (orbit_radius data) (AU (globals w))) as [au | x]; [ | reflexivity ].
  destruct (dict_get (expected_au A) name) as [e | ]; [reflexivity | ].
  destruct (of_int A 0) as [z | x]; reflexivity.
Qed.

Lemma summary_step_reports :
  reports (summary_row A) (fun _ u => u) (summary_step A).
Proof.
  intros [name data] [] w. unfold summary_step, summary_row, bind, global, lift. simpl.
  destruct (rbind (of_int A 1000) (div A (radius data))) as [km | x];
    simpl; [ | reflexivity ].
  destruct (div A (orbit_radius data) (AU (globals w))) as [au | x]; reflexivity.
Qed.

(** After a header of five lines, a report is its loop. *)
Lemma report_after_header {B : Type}
    (row : module_globals F -> string * body F -> result (line F))
    (upd : line F -> B -> B) (items : list (string * body F)) (acc : B)
    (w : world F) (a b c d e : line F) :
  report_outcome row upd [] items acc
    {| globals := globals w;
       stdout := ((((stdout w ++ [a]) ++ [b]) ++ [c]) ++ [d]) ++ [e] |} =
  report_outcome row upd [a; b; c; d; e] items acc w.
Proof.
  unfold report_outcome. simpl.
  destruct (collect (row (globals w)) items) as [rows [x | ]];
    repeat rewrite <- app_assoc; reflexivity.
Qed.

Lemma verify_orbital_periods_report (w : world F) :
  verify_orbital_periods A w =
  report_outcome (period_row A) (clear_if_not_ok A) (periods_header (F := F))
    (PLANETS (globals w)) true w.
Proof.
  unfold verify_orbital_periods, bind, print, global. simpl.
  rewrite (for_each_reports _ _ _ period_step_reports).
  apply report_after_header.
Qed.

Lemma verify_orbital_velocities_report (w : world F) :
  verify_orbital_velocities A w =
  report_outcome (velocity_row A) (clear_if_not_ok A) (velocities_header (F := F))
    (PLANETS (globals w)) true w.
Proof.
  unfold verify_orbital_velocities, bind, print, global. simpl.
  rewrite (for_each_reports _ _ _ velocity_step_reports).
  apply report_after_header.
Qed.

Lemma verify_orbit_distances_report (w : world F) :
  verify_orbit_distances A w =
  report_outcome (distance_row A) (fun _ u => u) (distances_header (F := F))
    (PLANETS (globals w)) tt w.
Proof.
  unfold verify_orbit_distances, bind, print, global. simpl.
  rewrite (for_each_reports _ _ _ distance_step_reports).
  apply report_after_header.
Qed.

Lemma print_summary_report (w : world F) :
  print_summary A w =
  report_outcome (summary_row A) (fun _ u => u) (summary_header (F := F))
    (PLANETS (globals w)) tt w.
Proof.
  unfold print_summary, bind, print, global. simpl.
  rewrite (for_each_reports _ _ _ summary_step_reports).
  apply report_after_header.
Qed.

Lemma fold_clear (rows : list (line F)) (acc : bool) :
  fold_left (fun a l => clear_if_not_ok A l a) rows acc =
  andb acc (forallb (row_ok A) rows).
Proof.
  revert acc. induction rows as [| l rest IH]; intro acc; simpl.
  - rewrite andb_true_r. reflexivity.
  - rewrite IH. unfold clear_if_not_ok.
    destruct (row_ok A l), acc; reflexivity.
Qed.

End ReportFacts.

(** ** The two reports that check nothing, in binary64 *)

Lemma b64_collect_by_au
    (row : module_globals float -> string * body float -> result (line float))
    (line_of : module_globals float -> string * body float -> line float)
    (g : module_globals float) :
  (forall item,
     row g item =
     if PrimFloat.eqb (AU g) 0 then Exc ZeroDivisionError else Val (line_of g item)) ->
  forall items,
    collect (row g) items =
    if PrimFloat.eqb (AU g) 0
    then ([], match items with [] => None | _ :: _ => Some ZeroDivisionError end)
    else (map (line_of g) items, None).
Proof.
  intros Hrow. induction items as [| item rest IH]; simpl.
  - destruct (PrimFloat.eqb (AU g) 0); reflexivity.
  - rewrite Hrow, IH. destruct (PrimFloat.eqb (AU g) 0); reflexivity.
Qed.

Lemma b64_distance_row (g : module_globals float) (item : string * body float) :
  distance_row B64.arith g item =
  if PrimFloat.eqb (AU g) 0 then Exc ZeroDivisionError
  else Val (b64_distance_line g item).
Proof.
  destruct item as [name data]. unfold distance_row, b64_distance_line.
  change (div B64.arith) with B64.div. unfold B64.div.
  change (of_int B64.arith 0) with (Val 0%float).
  cbn [fst snd].
  destruct (PrimFloat.eqb (AU g) 0); [reflexivity | ].
  cbn [rbind]. destruct (dict_get (expected_au B64.arith) name); reflexivity.
Qed.

Lemma b64_summary_row (g : module_globals float) (item : string * body float) :
  summary_row B64.arith g item =
  if PrimFloat.eqb (AU g) 0 then Exc ZeroDivisionError
  else Val (b64_summary_line g item).
Proof.
  destruct item as [name data]. unfold summary_row, b64_summary_line.
  change (of_int B64.arith 1000) with (Val 1000%float).
  change (div B64.arith) with B64.div. unfold B64.div.
  change (PrimFloat.eqb 1000 0) with false.
  cbn [fst snd rbind].
  destruct (PrimFloat.eqb (AU g) 0); reflexivity.
Qed.

Lemma b64_au_report_outcome
    (row : module_globals float -> string * body float -> result (line float))
    (line_of : module_globals float -> string * body float -> line float)
    (header : list (line float)) (w : world float) :
  (forall g item,
     row g item =
     if PrimFloat.eqb (AU g) 0 then Exc ZeroDivisionError else Val (line_of g item)) ->
  report_outcome row (fun _ u => u) header (PLANETS (globals w)) tt w =
  b64_au_report header line_of w.
Proof.
  intro Hrow. unfold report_outcome, b64_au_report.
  rewrite (b64_collect_by_au row line_of (globals w) (Hrow (globals w))).
  destruct (PrimFloat.eqb (AU (globals w)) 0).
  - destruct (PLANETS (globals w)); rewrite app_nil_r; reflexivity.
  - destruct (fold_left _ _ tt). reflexivity.
Qed.

(** X1.  [verify_orbit_distances] in binary64, for any table and any
    [AU]: when [AU] is not zero it returns, having printed its five header
    lines and then one line per body in table order, with the body's name,
    its [orbit_radius], [orbit_radius / AU] and [expected_au.get(name, 0)];
    when [AU] is zero it raises [ZeroDivisionError] after the header
    (unless the table is empty). *)
Theorem X1_verify_orbit_distances_report (w : world float) :
  verify_orbit_distances B64.arith w =
  b64_au_report (distances_header (F := float)) b64_distance_line w.
Proof.
  rewrite verify_orbit_distances_report.
  apply b64_au_report_outcome. exact b64_distance_row.
Qed.

(** X2.  [print_summary] in binary64, for any table and any [AU]: when
    [AU] is not zero it returns, having printed its five header lines and
    then one line per body in table order, with the body's name,
    [radius / 1000], [mass], [orbit_radius / AU] and [inclination]; when
    [AU] is zero it raises [ZeroDivisionError] after the header (unless the
    table is empty). *)
Theorem X2_print_summary_report (w : world float) :
  print_summary B64.arith w =
  b64_au_report (summary_header (F := float)) b64_summary_line w.
Proof.
  rewrite print_summary_report.
  apply b64_au_report_outcome. exact b64_summary_row.
Qed.

(** ** The lines of a check and its verdict *)

Section CheckLines.

Context {F : Type} (A : Arith F).

Lemma period_row_checked (g : module_globals F) (item : string * body F) (l : line F) :
  period_row A g item = Val l -> checked_line A item l.
Proof.
  destruct item as [name data]. unfold period_row.
  destruct (calculate_orbital_period A g (orbit_radius data)) as [c | ]; [ | discriminate ].
  cbn [rbind].
  destruct (rbind (of_int A (expected_period_days data)) (percent_error A c)) as [e | ];
    [ | discriminate ].
  cbn [rbind]. intros [= <-]. split; [reflexivity | ]. exists e. split; reflexivity.
Qed.

Lemma velocity_row_checked (g : module_globals F) (item : string * body F) (l : line F) :
  velocity_row A g item = Val l -> checked_line A item l.
Proof.
  destruct item as [name data]. unfold velocity_row.
  destruct (calculate_orbital_velocity A g (orbit_radius data)) as [c | ]; [ | discriminate ].
  cbn [rbind].
  destruct (percent_error A c (orbital_velocity data)) as [e | ]; [ | discriminate ].
  cbn [rbind]. intros [= <-]. split; [reflexivity | ]. exists e. split; reflexivity.
Qed.

(** The lines collected without an exception are one per item, in order. *)
Lemma collect_all {B C : Type} (f : B -> result C) (R : B -> C -> Prop) :
  (forall b c, f b = Val c -> R b c) ->
  forall items rows, collect f items = (rows, None) -> Forall2 R items rows.
Proof.
  intros Hf. induction items as [| item rest IH]; simpl; intros rows H.
  - injection H as <-. constructor.
  - destruct (f item) as [c | ] eqn:Hc; [ | discriminate ].
    destruct (collect f rest) as [cs x]. injection H as <- ->.
    constructor; [apply Hf; exact Hc | apply IH; reflexivity].
Qed.

Lemma Forall2_right {B C : Type} (R : B -> C -> Prop) (xs : list B) (ys : list C) :
  Forall2 R xs ys -> forall y, In y ys -> exists x, In x xs /\ R x y.
Proof.
  induction 1 as [| x y xs ys Hxy _ IH]; intros y' Hin.
  - destruct Hin.
  - destruct Hin as [<- | Hin].
    + exists x. split; [left; reflexivity | exact Hxy].
    + destruct (IH y' Hin) as (x' & Hx' & Hr). exists x'. split; [right | ]; assumption.
Qed.

End CheckLines.

(** In binary64 a line whose error is a number is a PASS iff it leaves
    [all_passed] alone. *)
Lemma b64_pass_iff_row_ok (item : string * body float) (l : line float) :
  checked_line B64.arith item l ->
  (forall e, line_error l = Some e -> is_number e = true) ->
  (line_status l = Some PASS <-> row_ok B64.arith l = true).
Proof.
  intros (_ & e & He & Hst) Hnum. rewrite Hst. unfold row_ok. rewrite He.
  unfold status_of. cbn [lt ge B64.arith]. rewrite b64_threshold.
  rewrite (ltb_negb_geb e 2 (Hnum e He) eq_refl).
  destruct (PrimFloat.leb 2 e); simpl; split; intro H; congruence.
Qed.

Lemma b64_check_lines
    (row : module_globals float -> string * body float -> result (line float))
    (header : list (line float)) (w : world float) (b : bool) (w' : world float) :
  (forall g item l, row g item = Val l -> checked_line B64.arith item l) ->
  report_outcome row (clear_if_not_ok B64.arith) header (PLANETS (globals w)) true w =
  Ok b w' ->
  exists rows,
    w' = {| globals := globals w; stdout := stdout w ++ header ++ rows |} /\
    Forall2 (checked_line B64.arith) (PLANETS (globals w)) rows /\
    ((forall l e, In l rows -> line_error l = Some e -> is_number e = true) ->
     (b = true <-> forall l, In l rows -> line_status l = Some PASS)).
Proof.
  intros Hrow. unfold report_outcome.
  destruct (collect (row (globals w)) (PLANETS (globals w))) as [rows [x | ]] eqn:Hc;
    [discriminate | ].
  intros [= <- <-]. exists rows. split; [reflexivity | ].
  assert (H2 : Forall2 (checked_line B64.arith) (PLANETS (globals w)) rows).
  { apply (collect_all (row (globals w))); [apply Hrow | exact Hc]. }
  split; [exact H2 | ]. intro Hnum.
  rewrite fold_clear. simpl. rewrite forallb_forall.
  split; intros H l Hin.
  - destruct (Forall2_right _ _ _ H2 l Hin) as (item & _ & Hl).
    apply (b64_pass_iff_row_ok item l Hl (fun e => Hnum l e Hin)). apply H. exact Hin.
  - destruct (Forall2_right _ _ _ H2 l Hin) as (item & _ & Hl).
    apply (b64_pass_iff_row_ok item l Hl (fun e => Hnum l e Hin)). apply H. exact Hin.
Qed.

(** X3.  When [verify_orbital_periods] returns, in binary64 and for any
    table, it has printed its five header lines and then one line per body
    in table order, each with the body's name, its percent error and the
    status of that error; and if the errors are numbers, it returns true
    iff every one of those lines has the status PASS. *)
Theorem X3_periods_lines_and_verdict (w : world float) (b : bool) (w' : world float) :
  verify_orbital_periods B64.arith w = Ok b w' ->
  exists rows,
    w' = {| globals := globals w;
            stdout := stdout w ++ periods_header (F := float) ++ rows |} /\
    Forall2 (checked_line B64.arith) (PLANETS (globals w)) rows /\
    ((forall l e, In l rows -> line_error l = Some e -> is_number e = true) ->
     (b = true <-> forall l, In l rows -> line_status l = Some PASS)).
Proof.
  rewrite verify_orbital_periods_report.
  apply b64_check_lines. apply period_row_checked.
Qed.

(** X3 on the run of the script. *)
Lemma X3_on_the_table :
  exists rows,
    world_of (verify_orbital_periods B64.arith (start B64.arith [])) =
    {| globals := B64.init; stdout := [] ++ periods_header (F := float) ++ rows |} /\
    Forall2 (checked_line B64.arith) (PLANETS B64.init) rows /\
    ((forall l e, In l rows -> line_error l = Some e -> is_number e = true) ->
     (true = true <-> forall l, In l rows -> line_status l = Some PASS)).
Proof.
  apply (X3_periods_lines_and_verdict (start B64.arith []) true
           (world_of (verify_orbital_periods B64.arith (start B64.arith [])))).
  vm_compute. reflexivity.
Defined.

(** X4.  When [verify_orbital_velocities] returns, in binary64 and for any
    table, it has printed its five header lines and then one line per body
    in table order, each with the body's name, its percent error and the
    status of that error; and if the errors are numbers, it returns true
    iff every one of those lines has the status PASS. *)
Theorem X4_velocities_lines_and_verdict (w : world float) (b : bool) (w' : world float) :
  verify_orbital_velocities B64.arith w = Ok b w' ->
  exists rows,
    w' = {| globals := globals w;
            stdout := stdout w ++ velocities_header (F := float) ++ rows |} /\
    Forall2 (checked_line B64.arith) (PLANETS (globals w)) rows /\
    ((forall l e, In l rows -> line_error l = Some e -> is_number e = true) ->
     (b = true <-> forall l, In l rows -> line_status l = Some PASS)).
Proof.
  rewrite verify_orbital_velocities_report.
  apply b64_check_lines. apply velocity_row_checked.
Qed.

(** X4 on the run of the script. *)
Lemma X4_on_the_table :
  exists rows,
    world_of (verify_orbital_velocities B64.arith (start B64.arith [])) =
    {| globals := B64.init; stdout := [] ++ velocities_header (F := float) ++ rows |} /\
    Forall2 (checked_line B64.arith) (PLANETS B64.init) rows /\
    ((forall l e, In l rows -> line_error l = Some e -> is_number e = true) ->
     (true = true <-> forall l, In l rows -> line_status l = Some PASS)).
Proof.
  apply (X4_velocities_lines_and_verdict (start B64.arith []) true
           (world_of (verify_orbital_velocities B64.arith (start B64.arith [])))).
  vm_compute. reflexivity.
Defined.

(** ** Running again *)

(** X5.  What [main] prints and returns (or raises) does not depend on
    what was printed before, and a second call repeats the first: in any
    arithmetic and for any table, with [o] the outcome of [main] on an
    empty output, a call appends the lines of [o] and ends as [o] does,
    and so does the call after it. *)
Theorem X5_second_run_repeats_first (F : Type) (A : Arith F) (w : world F) :
  let o := main A {| globals := globals w; stdout := [] |} in
  main A w = after (stdout w) o /\
  main A (world_of (main A w)) = after (stdout w ++ stdout (world_of o)) o.
Proof.
  intro o. destruct w as [g p]. cbn [globals stdout] in *.
  assert (H1 : main A {| globals := g; stdout := p |} = after p o)
    by apply appends_main.
  split; [exact H1 | ]. rewrite H1.
  pose proof (keeps_main A {| globals := g; stdout := [] |}) as Hg.
  fold o in Hg. cbn [globals] in Hg.
  destruct o as [code [g1 s1] | x [g1 s1]] eqn:Ho; cbn [after world_of globals stdout] in *;
    subst g1; rewrite (appends_main A g (p ++ s1)); fold o; rewrite Ho; reflexivity.
Qed.

(** ** The order of the table *)

Section TableOrder.

Context {F : Type} (A : Arith F).

Lemma period_error_reads (g1 g2 : module_globals F) (data : body F) :
  G g1 = G g2 -> M_SUN g1 = M_SUN g2 ->
  period_error A g1 data = period_error A g2 data.
Proof.
  intros HG HM. unfold period_error, calculate_orbital_period.
  rewrite HG, HM. reflexivity.
Qed.

Lemma velocity_error_reads (g1 g2 : module_globals F) (data : body F) :
  G g1 = G g2 -> M_SUN g1 = M_SUN g2 ->
  velocity_error A g1 data = velocity_error A g2 data.
Proof.
  intros HG HM. unfold velocity_error, calculate_orbital_velocity.
  rewrite HG, HM. reflexivity.
Qed.

(** Two outcomes of a check over tables with the same items and the same
    errors agree when the first is a verdict. *)
Lemma check_outcome_same_items
    (error_of : module_globals F -> body F -> result F)
    (items1 items2 : list (string * body F)) (w1 w2 : world F)
    (o2 : outcome F bool) (b1 : bool) (w1' : world F) :
  (forall item, In item items2 -> In item items1) ->
  (forall item, In item items1 -> In item items2) ->
  (forall data, error_of (globals w1) data = error_of (globals w2) data) ->
  check_outcome A error_of items1 true w1 (Ok b1 w1') ->
  check_outcome A error_of items2 true w2 o2 ->
  exists w2', o2 = Ok b1 w2'.
Proof.
  intros H21 H12 Herr (_ & Hval & Hb1) O2.
  destruct o2 as [b2 w2' | x w2']; simpl in O2.
  - exists w2'. f_equal. destruct O2 as (_ & _ & Hb2).
    destruct b1, b2; try reflexivity.
    + apply Hb2. split; [reflexivity | ].
      intros item e Hin He. rewrite <- Herr in He.
      destruct Hb1 as [Hb1 _]. destruct (Hb1 eq_refl) as [_ Hall].
      apply (Hall item e (H21 item Hin) He).
    + symmetry. apply Hb1. split; [reflexivity | ].
      intros item e Hin He. rewrite Herr in He.
      destruct Hb2 as [Hb2 _]. destruct (Hb2 eq_refl) as [_ Hall].
      apply (Hall item e (H12 item Hin) He).
  - exfalso. destruct O2 as (_ & item & Hin & Hx).
    destruct (Hval item (H21 item Hin)) as [e He].
    rewrite Herr in He. congruence.
Qed.

End TableOrder.

(** X6.  The verdict of a check does not depend on the order of the
    table: in any arithmetic, if [verify_orbital_periods] returns [b] on a
    table, it returns [b] on every permutation of that table under the
    same [G] and [M_SUN]; and likewise [verify_orbital_velocities]. *)
Theorem X6_verdict_ignores_order (F : Type) (A : Arith F) (w1 w2 : world F) :
  G (globals w1) = G (globals w2) ->
  M_SUN (globals w1) = M_SUN (globals w2) ->
  Permutation (PLANETS (globals w1)) (PLANETS (globals w2)) ->
  (forall b w1', verify_orbital_periods A w1 = Ok b w1' ->
     exists w2', verify_orbital_periods A w2 = Ok b w2') /\
  (forall b w1', verify_orbital_velocities A w1 = Ok b w1' ->
     exists w2', verify_orbital_velocities A w2 = Ok b w2').
Proof.
  intros HG HM Hperm.
  assert (H12 : forall item, In item (PLANETS (globals w1)) -> In item (PLANETS (globals w2)))
    by (intro item; apply Permutation_in; exact Hperm).
  assert (H21 : forall item, In item (PLANETS (globals w2)) -> In item (PLANETS (globals w1)))
    by (intro item; apply Permutation_in; apply Permutation_sym;
        exact Hperm).
  split; intros b w1' H1.
  - pose proof (verify_orbital_periods_outcome A w1) as O1. rewrite H1 in O1.
    apply (check_outcome_same_items A (period_error A) _ _ w1 w2 _ b w1' H21 H12);
      [ | exact O1 | apply verify_orbital_periods_outcome ].
    intro data. apply period_error_reads; assumption.
  - pose proof (verify_orbital_velocities_outcome A w1) as O1. rewrite H1 in O1.
    apply (check_outcome_same_items A (velocity_error A) _ _ w1 w2 _ b w1' H21 H12);
      [ | exact O1 | apply verify_orbital_velocities_outcome ].
    intro data. apply velocity_error_reads; assumption.
Qed.

(** X6 on the script's table and the same table read backwards. *)
Lemma X6_on_the_reversed_table :
  (forall b w1', verify_orbital_periods B64.arith (start B64.arith []) = Ok b w1' ->
     exists w2',
       verify_orbital_periods B64.arith
         {| globals := with_planets B64.init (rev (PLANETS B64.init)); stdout := [] |} =
       Ok b w2') /\
  (forall b w1', verify_orbital_velocities B64.arith (start B64.arith []) = Ok b w1' ->
     exists w2',
       verify_orbital_velocities B64.arith
         {| globals := with_planets B64.init (rev (PLANETS B64.init)); stdout := [] |} =
       Ok b w2').
Proof.
  apply (X6_verdict_ignores_order float B64.arith (start B64.arith [])
           {| globals := with_planets B64.init (rev (PLANETS B64.init)); stdout := [] |}).
  - reflexivity.
  - reflexivity.
  - apply Permutation_rev.
Defined.

(** ** When the script completes *)

Section Completion.

Context {F : Type} (A : Arith F).

(** [main] is its four reports in a row: it raises what the first of them
    to raise raises, and returns the exit code otherwise. *)
Lemma main_cases (w : world F) :
  exists w0, globals w0 = globals w /\
    match verify_orbital_periods A w0 with
    | Raise x w1 => main A w = Raise x w1
    | Ok p w1 =>
        match verify_orbital_velocities A w1 with
        | Raise x w2 => main A w = Raise x w2
        | Ok v w2 =>
            match verify_orbit_distances A w2 with
            | Raise x w3 => main A w = Raise x w3
            | Ok _ w3 =>
                match print_summary A w3 with
                | Raise x w4 => main A w = Raise x w4
                | Ok _ w4 =>
                    exists w5, main A w = Ok (if andb p v then 0 else 1)%Z w5
                end
            end
        end
    end.
Proof.
  unfold main.
  remember (verify_orbital_periods A) as periods eqn:Ep.
  remember (verify_orbital_velocities A) as velocities eqn:Ev.
  remember (verify_orbit_distances A) as distances eqn:Ed.
  remember (print_summary A) as summary eqn:Es.
  unfold bind, print, global, ret. cbn [globals stdout].
  match goal with
  | |- context [periods ?w0] => exists w0
  end.
  split; [reflexivity | ].
  match goal with
  | |- context [periods ?w0] => destruct (periods w0) as [p w1 | x w1]
  end; [ | reflexivity ].
  destruct (velocities w1) as [v w2 | x w2]; [ | reflexivity ].
  destruct (distances w2) as [[] w3 | x w3]; [ | reflexivity ].
  destruct (summary w3) as [[] w4 | x w4]; [ | reflexivity ].
  destruct (andb p v); cbn; eexists; reflexivity.
Qed.

(** A check returns a verdict iff every error is computed. *)
Lemma check_returns (error_of : module_globals F -> body F -> result F)
    (items : list (string * body F)) (acc : bool) (w : world F) (o : outcome F bool) :
  check_outcome A error_of items acc w o ->
  ((exists b w', o = Ok b w') <->
   forall item, In item items -> exists e, error_of (globals w) (snd item) = Val e).
Proof.
  destruct o as [b w' | x w']; simpl.
  - intros (_ & Hval & _). split; [intros _; exact Hval | intros _; eauto].
  - intros (_ & item & Hin & Hx). split.
    + intros (b & w'' & H). discriminate.
    + intro Hval. destruct (Hval item Hin) as [e He]. congruence.
Qed.

(** A report returns iff every line is computed. *)
Lemma collect_none {B C : Type} (f : B -> result C) (items : list B) :
  snd (collect f items) = None <-> forall item, In item items -> exists c, f item = Val c.
Proof.
  induction items as [| item rest IH]; simpl.
  - split; [intros _ item [] | reflexivity].
  - destruct (f item) as [c | x] eqn:Hc.
    + destruct (collect f rest) as [cs y]. simpl in *. rewrite IH. split.
      * intros H it [<- | Hin]; [eauto | auto].
      * intros H it Hin. apply H. right. exact Hin.
    + simpl. split; [discriminate | ].
      intro H. destruct (H item (or_introl eq_refl)) as [c Hc']. congruence.
Qed.

Lemma report_returns {B : Type}
    (row : module_globals F -> string * body F -> result (line F))
    (upd : line F -> B -> B) (header : list (line F))
    (items : list (string * body F)) (acc : B) (w : world F) :
  (exists b w', report_outcome row upd header items acc w = Ok b w') <->
  forall item, In item items -> exists l, row (globals w) item = Val l.
Proof.
  rewrite <- collect_none. unfold report_outcome.
  destruct (collect (row (globals w)) items) as [rows [x | ]]; simpl.
  - split; [intros (b & w' & H); discriminate | discriminate].
  - split; [reflexivity | intros _; eauto].
Qed.

(** [main] returns an exit code iff each of its four loops computes what
    it prints for every body. *)
Lemma main_returns (w : world F) :
  (exists code w', main A w = Ok code w') <->
  (forall item, In item (PLANETS (globals w)) ->
     exists e, period_error A (globals w) (snd item) = Val e) /\
  (forall item, In item (PLANETS (globals w)) ->
     exists e, velocity_error A (globals w) (snd item) = Val e) /\
  (forall item, In item (PLANETS (globals w)) ->
     exists l, distance_row A (globals w) item = Val l) /\
  (forall item, In item (PLANETS (globals w)) ->
     exists l, summary_row A (globals w) item = Val l).
Proof.
  destruct (main_cases w) as (w0 & Hg0 & Hmain).
  pose proof (verify_orbital_periods_outcome A w0) as Op.
  pose proof (check_returns _ _ _ _ _ Op) as Rp.
  pose proof (keeps_verify_orbital_periods A w0) as Kp.
  destruct (verify_orbital_periods A w0) as [p w1 | x w1]; cbn [world_of] in Kp.
  2:{ rewrite Hmain. rewrite <- Hg0. split.
      - intros (code & w' & H). discriminate.
      - intros (Hp & _). apply Rp in Hp. destruct Hp as (b & w' & H). discriminate. }
  pose proof (verify_orbital_velocities_outcome A w1) as Ov.
  pose proof (check_returns _ _ _ _ _ Ov) as Rv.
  pose proof (keeps_verify_orbital_velocities A w1) as Kv.
  destruct (verify_orbital_velocities A w1) as [v w2 | x w2]; cbn [world_of] in Kv.
  2:{ rewrite Hmain. rewrite <- Hg0, <- Kp. split.
      - intros (code & w' & H). discriminate.
      - intros (_ & Hv & _). apply Rv in Hv. destruct Hv as (b & w' & H). discriminate. }
  pose proof (report_returns (distance_row A) (fun _ u => u) (distances_header (F := F))
                (PLANETS (globals w2)) tt w2) as Rd.
  rewrite <- verify_orbit_distances_report in Rd.
  pose proof (keeps_verify_orbit_distances A w2) as Kd.
  destruct (verify_orbit_distances A w2) as [[] w3 | x w3]; cbn [world_of] in Kd.
  2:{ rewrite Hmain. rewrite <- Hg0, <- Kp, <- Kv. split.
      - intros (code & w' & H). discriminate.
      - intros (_ & _ & Hd & _). apply Rd in Hd. destruct Hd as (b & w' & H). discriminate. }
  pose proof (report_returns (summary_row A) (fun _ u => u) (summary_header (F := F))
                (PLANETS (globals w3)) tt w3) as Rs.
  rewrite <- print_summary_report in Rs.
  pose proof (keeps_print_summary A w3) as Ks.
  destruct (print_summary A w3) as [[] w4 | x w4]; cbn [world_of] in Ks.
  2:{ rewrite Hmain. rewrite <- Hg0, <- Kp, <- Kv, <- Kd. split.
      - intros (code & w' & H). discriminate.
      - intros (_ & _ & _ & Hs). apply Rs in Hs. destruct Hs as (b & w' & H). discriminate. }
  destruct Hmain as [w5 Hmain]. rewrite Hmain.
  split; [intros _ | intros _; eauto].
  rewrite <- Hg0.
  split; [apply Rp; eauto | ].
  rewrite <- Kp.
  split; [apply Rv; eauto | ].
  rewrite <- Kv.
  split; [apply Rd; eauto | ].
  rewrite <- Kd. apply Rs; eauto.
Qed.

End Completion.

(** In binary64 the two reports that check nothing compute their lines iff
    the table is empty or [AU] is not zero. *)
Lemma b64_au_rows
    (row : module_globals float -> string * body float -> result (line float))
    (line_of : module_globals float -> string * body float -> line float)
    (g : module_globals float) :
  (forall item,
     row g item =
     if PrimFloat.eqb (AU g) 0 then Exc ZeroDivisionError else Val (line_of g item)) ->
  ((forall item, In item (PLANETS g) -> exists l, row g item = Val l) <->
   (PLANETS g = [] \/ PrimFloat.eqb (AU g) 0 = false)).
Proof.
  intro Hrow. split.
  - intro H. destruct (PLANETS g) as [| item rest]; [left; reflexivity | right].
    destruct (H item (or_introl eq_refl)) as [l Hl]. rewrite Hrow in Hl.
    destruct (PrimFloat.eqb (AU g) 0); [discriminate | reflexivity].
  - intros [-> | Hau] item Hin; [destruct Hin | ].
    rewrite Hrow, Hau. eauto.
Qed.

(** A radius of zero, of either sign, stops the computation of the
    velocity. *)
Lemma b64_velocity_zero_radius (g : module_globals float) (x : float) :
  PrimFloat.eqb x 0 = true ->
  calculate_orbital_velocity B64.arith g x = Exc ZeroDivisionError.
Proof.
  intro Hx. unfold calculate_orbital_velocity. change (div B64.arith) with B64.div.
  unfold B64.div. rewrite Hx. reflexivity.
Qed.

(** X7.  In binary64 and for any table and constants, [main] returns an
    exit code iff the percent errors of every body's period and velocity
    are computed (no exception) and [AU] is not zero or the table is
    empty; otherwise it ends in an exception. *)
Theorem X7_main_returns_iff (w : world float) :
  (exists code w', main B64.arith w = Ok code w') <->
  (forall item, In item (PLANETS (globals w)) ->
     exists e, period_error B64.arith (globals w) (snd item) = Val e) /\
  (forall item, In item (PLANETS (globals w)) ->
     exists e, velocity_error B64.arith (globals w) (snd item) = Val e) /\
  (PLANETS (globals w) = [] \/ PrimFloat.eqb (AU (globals w)) 0 = false).
Proof.
  rewrite main_returns.
  rewrite (b64_au_rows (distance_row B64.arith) b64_distance_line (globals w)
             (b64_distance_row (globals w))).
  rewrite (b64_au_rows (summary_row B64.arith) b64_summary_line (globals w)
             (b64_summary_row (globals w))).
  tauto.
Qed.

(** ** A body that stops a loop *)

Section Stops.

Context {F : Type} (A : Arith F).

(** [main] is its four reports in a row, entered after the opening lines
    and followed by the closing lines. *)
Lemma main_steps (w : world F) :
  main A w =
  match verify_orbital_periods A
          {| globals := globals w;
             stdout := stdout w ++ opening_lines (globals w) |} with
  | Raise x w1 => Raise x w1
  | Ok p w1 =>
      match verify_orbital_velocities A w1 with
      | Raise x w2 => Raise x w2
      | Ok v w2 =>
          match verify_orbit_distances A w2 with
          | Raise x w3 => Raise x w3
          | Ok _ w3 =>
              match print_summary A w3 with
              | Raise x w4 => Raise x w4
              | Ok _ w4 =>
                  Ok (if andb p v then 0 else 1)%Z
                     {| globals := globals w4;
                        stdout := stdout w4 ++
                                  closing_lines (if andb p v then 0 else 1)%Z |}
              end
          end
      end
  end.
Proof.
  unfold main, opening_lines, closing_lines.
  remember (verify_orbital_periods A) as periods eqn:Ep.
  remember (verify_orbital_velocities A) as velocities eqn:Ev.
  remember (verify_orbit_distances A) as distances eqn:Ed.
  remember (print_summary A) as summary eqn:Es.
  unfold bind, print, global, ret. cbn [globals stdout].
  repeat rewrite <- app_assoc. cbn [app].
  destruct (periods _) as [p w1 | x w1]; [ | reflexivity ].
  destruct (velocities w1) as [v w2 | x w2]; [ | reflexivity ].
  destruct (distances w2) as [[] w3 | x w3]; [ | reflexivity ].
  destruct (summary w3) as [[] w4 | x w4]; [ | reflexivity ].
  destruct (andb p v); cbn; repeat rewrite <- app_assoc; reflexivity.
Qed.

(** A loop over a table in which the line of [bad] cannot be computed
    stops at [bad] or before it. *)
Lemma collect_stops {B C : Type} (f : B -> result C) (pre : list B) (bad : B)
    (post : list B) (e : exn) :
  f bad = Exc e ->
  exists k rows x,
    collect f (pre ++ bad :: post) = (rows, Some x) /\
    k <= List.length pre /\
    Forall2 (fun b c => f b = Val c) (firstn k pre) rows.
Proof.
  intro Hbad. induction pre as [| a pre IH]; simpl.
  - rewrite Hbad. exists 0, [], e. repeat split; [apply Nat.le_refl | constructor].
  - destruct (f a) as [c | x] eqn:Ha.
    + destruct IH as (k & rows & x & Hc & Hk & Hrows). rewrite Hc.
      exists (S k), (c :: rows), x. split; [reflexivity | split].
      * apply le_n_S. exact Hk.
      * simpl. constructor; assumption.
    + exists 0, [], x. repeat split; [apply Nat.le_0_l | constructor].
Qed.

Lemma report_stops {B : Type}
    (row : module_globals F -> string * body F -> result (line F))
    (upd : line F -> B -> B) (header : list (line F))
    (pre : list (string * body F)) (bad : string * body F)
    (post : list (string * body F)) (acc : B) (w : world F) (e : exn) :
  row (globals w) bad = Exc e ->
  exists k rows x,
    report_outcome row upd header (pre ++ bad :: post) acc w =
    Raise x {| globals := globals w; stdout := stdout w ++ header ++ rows |} /\
    k <= List.length pre /\
    lines_before (row (globals w)) (firstn k pre) rows.
Proof.
  intro Hbad.
  destruct (collect_stops (row (globals w)) pre bad post e Hbad)
    as (k & rows & x & Hc & Hk & Hrows).
  exists k, rows, x. unfold report_outcome. rewrite Hc.
  split; [reflexivity | split; assumption].
Qed.

End Stops.

(** The line of a body without a reference cannot be computed, whatever
    [x ** 3] yields. *)
Lemma period_row_zero_reference (cube : float -> result float)
    (g : module_globals float) (item : string * body float) :
  expected_period_days (snd item) = 0%Z ->
  exists x, period_row (B64.arith_with cube) g item = Exc x.
Proof.
  destruct item as [name data]. cbn [snd]. intro Hz. unfold period_row. rewrite Hz.
  destruct (calculate_orbital_period _ g (orbit_radius data)) as [c | x];
    cbn [rbind]; [ | eauto ].
  change (of_int (B64.arith_with cube) 0) with (Val 0%float). cbn [rbind].
  unfold percent_error. change (div (B64.arith_with cube)) with B64.div.
  unfold B64.div. change (PrimFloat.eqb 0 0) with true. cbn [rbind]. eauto.
Qed.

Lemma velocity_row_zero_reference (cube : float -> result float)
    (g : module_globals float) (item : string * body float) :
  PrimFloat.eqb (orbital_velocity (snd item)) 0 = true ->
  exists x, velocity_row (B64.arith_with cube) g item = Exc x.
Proof.
  destruct item as [name data]. cbn [snd]. intro Hz. unfold velocity_row.
  destruct (calculate_orbital_velocity _ g (orbit_radius data)) as [c | x];
    cbn [rbind]; [ | eauto ].
  unfold percent_error. change (div (B64.arith_with cube)) with B64.div.
  unfold B64.div. rewrite Hz. cbn [rbind]. eauto.
Qed.

Lemma velocity_row_zero_radius (cube : float -> result float)
    (g : module_globals float) (item : string * body float) :
  PrimFloat.eqb (orbit_radius (snd item)) 0 = true ->
  velocity_row (B64.arith_with cube) g item = Exc ZeroDivisionError.
Proof.
  destruct item as [name data]. cbn [snd]. intro Hz. unfold velocity_row.
  unfold calculate_orbital_velocity. change (div (B64.arith_with cube)) with B64.div.
  unfold B64.div. rewrite Hz. reflexivity.
Qed.

(** The velocity check stops at a body whose velocity line cannot be
    computed, or before it, and [main] with it. *)
Lemma velocity_check_stops (cube : float -> result float) (w : world float)
    (pre post : list (string * body float)) (item : string * body float) (e : exn) :
  PLANETS (globals w) = pre ++ item :: post ->
  velocity_row (B64.arith_with cube) (globals w) item = Exc e ->
  (exists x k rows,
     verify_orbital_velocities (B64.arith_with cube) w =
     Raise x {| globals := globals w;
                stdout := stdout w ++ velocities_header (F := float) ++ rows |} /\
     k <= List.length pre /\
     lines_before (velocity_row (B64.arith_with cube) (globals w)) (firstn k pre) rows) /\
  (exists x w', main (B64.arith_with cube) w = Raise x w').
Proof.
  intros Htable Hrow. split.
  - rewrite verify_orbital_velocities_report, Htable.
    destruct (report_stops (velocity_row (B64.arith_with cube))
                (clear_if_not_ok (B64.arith_with cube)) (velocities_header (F := float))
                pre item post true w e Hrow) as (k & rows & x & H & Hk & Hrows).
    exists x, k, rows. split; [exact H | split; assumption].
  - rewrite main_steps.
    destruct (verify_orbital_periods _ _) as [p w1 | x w1] eqn:Hp; [ | eauto ].
    pose proof (keeps_verify_orbital_periods (B64.arith_with cube)
                  {| globals := globals w;
                     stdout := stdout w ++ opening_lines (globals w) |}) as K.
    rewrite Hp in K. cbn [world_of globals] in K.
    rewrite verify_orbital_velocities_report, K, Htable.
    destruct (report_stops (velocity_row (B64.arith_with cube))
                (clear_if_not_ok (B64.arith_with cube)) (velocities_header (F := float))
                pre item post true w1 e) as (k & rows & x & H & _).
    { rewrite K. exact Hrow. }
    rewrite H. eauto.
Qed.

(** X8.  In binary64 and whatever [x ** 3] yields, a body whose
    [expected_period_days] is 0 stops the script in the period check:
    [main] ends in an exception, having printed its opening lines, the
    header of the period report and the period lines of the first [k]
    bodies of the table only, all of them before that body.  No line of
    the body, no other report and no verdict is printed, and no exit code
    returned. *)
Theorem X8_zero_reference_stops_the_run
    (cube : float -> result float) (w : world float)
    (pre post : list (string * body float)) (item : string * body float) :
  PLANETS (globals w) = pre ++ item :: post ->
  expected_period_days (snd item) = 0%Z ->
  exists x k rows,
    main (B64.arith_with cube) w =
    Raise x {| globals := globals w;
               stdout := stdout w ++ opening_lines (globals w) ++
                         periods_header (F := float) ++ rows |} /\
    k <= List.length pre /\
    lines_before (period_row (B64.arith_with cube) (globals w)) (firstn k pre) rows.
Proof.
  intros Htable Hz.
  destruct (period_row_zero_reference cube (globals w) item Hz) as [e He].
  rewrite main_steps, verify_orbital_periods_report. cbn [globals stdout].
  rewrite Htable.
  destruct (report_stops (period_row (B64.arith_with cube))
              (clear_if_not_ok (B64.arith_with cube)) (periods_header (F := float))
              pre item post true
              {| globals := globals w;
                 stdout := stdout w ++ opening_lines (globals w) |} e He)
    as (k & rows & x & H & Hk & Hrows).
  cbn [globals stdout] in H. rewrite H.
  exists x, k, rows. rewrite <- app_assoc.
  split; [reflexivity | split; assumption].
Qed.

(** X8 on a table whose only body has no reference period. *)
Lemma X8_on_no_reference :
  exists x k rows,
    main (B64.arith_with B64.pow3)
      {| globals := with_planets B64.init no_reference; stdout := [] |} =
    Raise x {| globals := with_planets B64.init no_reference;
               stdout := [] ++ opening_lines (with_planets B64.init no_reference) ++
                         periods_header (F := float) ++ rows |} /\
    k <= List.length (A := string * body float) [] /\
    lines_before (period_row (B64.arith_with B64.pow3)
                    (with_planets B64.init no_reference))
      (firstn k []) rows.
Proof.
  apply (X8_zero_reference_stops_the_run B64.pow3
           {| globals := with_planets B64.init no_reference; stdout := [] |}
           [] []
           ("Earth"%string,
            {| orbit_radius := 149597870700%float;
               orbital_velocity := 29780%float;
               expected_period_days := 0;
               inclination := 0%float;
               radius := 6371000%float;
               mass := 5.972e24%float |})).
  - reflexivity.
  - reflexivity.
Defined.

(** X14.  In binary64 and whatever [x ** 3] yields, a body whose
    [orbital_velocity] is a zero stops the velocity check:
    [verify_orbital_velocities] ends in an exception, having printed its
    header and the velocity lines of the first [k] bodies of the table
    only, all of them before that body; and [main] ends in an exception
    and returns no exit code. *)
Theorem X14_zero_reference_velocity_stops_the_check
    (cube : float -> result float) (w : world float)
    (pre post : list (string * body float)) (item : string * body float) :
  PLANETS (globals w) = pre ++ item :: post ->
  PrimFloat.eqb (orbital_velocity (snd item)) 0 = true ->
  (exists x k rows,
     verify_orbital_velocities (B64.arith_with cube) w =
     Raise x {| globals := globals w;
                stdout := stdout w ++ velocities_header (F := float) ++ rows |} /\
     k <= List.length pre /\
     lines_before (velocity_row (B64.arith_with cube) (globals w)) (firstn k pre) rows) /\
  (exists x w', main (B64.arith_with cube) w = Raise x w').
Proof.
  intros Htable Hz.
  destruct (velocity_row_zero_reference cube (globals w) item Hz) as [e He].
  exact (velocity_check_stops cube w pre post item e Htable He).
Qed.

(** X14 on a table whose only body has the reference velocity 0.0. *)
Lemma X14_on_no_velocity :
  (exists x k rows,
     verify_orbital_velocities (B64.arith_with B64.pow3)
       {| globals := with_planets B64.init no_velocity; stdout := [] |} =
     Raise x {| globals := with_planets B64.init no_velocity;
                stdout := [] ++ velocities_header (F := float) ++ rows |} /\
     k <= List.length (A := string * body float) [] /\
     lines_before (velocity_row (B64.arith_with B64.pow3)
                     (with_planets B64.init no_velocity))
       (firstn k []) rows) /\
  (exists x w',
     main (B64.arith_with B64.pow3)
       {| globals := with_planets B64.init no_velocity; stdout := [] |} = Raise x w').
Proof.
  apply (X14_zero_reference_velocity_stops_the_check B64.pow3
           {| globals := with_planets B64.init no_velocity; stdout := [] |}
           [] []
           ("Earth"%string,
            {| orbit_radius := 149597870700%float;
               orbital_velocity := 0%float;
               expected_period_days := 365;
               inclination := 0%float;
               radius := 6371000%float;
               mass := 5.972e24%float |})).
  - reflexivity.
  - reflexivity.
Defined.

(** ** A reference below zero *)

Lemma binary_round_aux_minus (m e : Z) (l : location) :
  not_positive (binary_round_aux prec emax true m e l) = true.
Proof.
  unfold binary_round_aux.
  destruct (shr_fexp prec emax m e l) as [mrs1 e1].
  destruct (shr_fexp prec emax _ e1 loc_Exact) as [mrs2 e2].
  destruct (shr_m mrs2); [reflexivity | | reflexivity].
  destruct (Z.leb e2 (emax - prec)); reflexivity.
Qed.

Lemma SFabs_sign (x : spec_float) : not_negative (SFabs x) = true.
Proof. destruct x; reflexivity. Qed.

Lemma SFdiv_minus (x y : spec_float) :
  not_negative x = true -> below_zero y = true ->
  not_positive (SFdiv prec emax x y) = true.
Proof.
  destruct x as [sx | sx | | sx mx ex], y as [sy | [ | ] | | [ | ] my ey];
    simpl; intros Hx Hy; try discriminate; try reflexivity;
    try (destruct sx; try discriminate; reflexivity).
  destruct sx; [discriminate |].
  destruct (SFdiv_core_binary prec emax (Z.pos mx) ex (Z.pos my) ey) as [[mz ez] lz].
  apply binary_round_aux_minus.
Qed.

Lemma SFmul_minus (x y : spec_float) :
  not_positive x = true -> above_zero y = true ->
  not_positive (SFmul prec emax x y) = true.
Proof.
  destruct x as [sx | sx | | sx mx ex], y as [sy | [ | ] | | [ | ] my ey];
    simpl; intros Hx Hy; try discriminate; try reflexivity;
    try (destruct sx; try discriminate; reflexivity).
  destruct sx; [ | discriminate].
  apply binary_round_aux_minus.
Qed.

Lemma ltb_zero_below_zero (x : float) :
  PrimFloat.ltb x 0 = true -> below_zero (Prim2SF x) = true.
Proof.
  rewrite ltb_spec. unfold SFltb. change (Prim2SF 0) with (S754_zero false).
  destruct (Prim2SF x) as [s | [ | ] | | [ | ] m e]; simpl; intro H;
    try discriminate; reflexivity.
Qed.

Lemma below_zero_not_zero (x : float) :
  below_zero (Prim2SF x) = true -> PrimFloat.eqb x 0 = false.
Proof.
  rewrite eqb_spec. unfold SFeqb. change (Prim2SF 0) with (S754_zero false).
  destruct (Prim2SF x) as [s | [ | ] | | [ | ] m e]; simpl; intro H;
    try discriminate; reflexivity.
Qed.

(** What is not above zero is below every finite number above zero. *)
Lemma SFcompare_not_positive (m : positive) (k : Z) (y : spec_float) :
  not_positive y = true ->
  SFleb (S754_finite false m k) y = false /\
  (SFeqb y y = true -> SFltb y (S754_finite false m k) = true).
Proof.
  unfold SFleb, SFltb, SFeqb.
  destruct y as [s | [ | ] | | [ | ] m' k']; cbn [not_positive SFcompare]; intro H;
    try discriminate; split; try reflexivity; try discriminate.
Qed.

(** What is not above zero is not [>= 2.0], and is [< 2.0] if a number. *)
Lemma not_positive_below_threshold (e : float) :
  not_positive (Prim2SF e) = true ->
  PrimFloat.leb 2 e = false /\ (is_number e = true -> PrimFloat.ltb e 2 = true).
Proof.
  unfold is_number. rewrite leb_spec, ltb_spec, eqb_spec.
  assert (H2 : exists m k, Prim2SF 2 = S754_finite false m k)
    by (vm_compute; eauto).
  destruct H2 as (m & k & ->). apply SFcompare_not_positive.
Qed.

(** X9.  In binary64, a reference value below zero can never fail a
    check: whatever was calculated, the percent error
    [abs(calculated - reference) / reference * 100] is computed, it is not
    [>= 2.0], so [all_passed] is left as it was, and the status is PASS
    unless the error is NaN. *)
Theorem X9_negative_reference_never_fails (c r : float) (all_passed : bool) :
  PrimFloat.ltb r 0 = true ->
  exists e,
    percent_error B64.arith c r = Val e /\
    update_all_passed B64.arith e all_passed = all_passed /\
    (is_number e = true -> status_of B64.arith e = PASS).
Proof.
  intro Hr. apply ltb_zero_below_zero in Hr.
  unfold percent_error. change (div B64.arith) with B64.div.
  change (of_int B64.arith 100) with (Val 100%float).
  cbn [fabs sub mul B64.arith]. unfold B64.div.
  rewrite (below_zero_not_zero r Hr). cbn [rbind].
  eexists. split; [reflexivity | ].
  assert (He : not_positive (Prim2SF (PrimFloat.abs (c - r) / r * 100)) = true).
  { rewrite mul_spec, div_spec, abs_spec.
    apply SFmul_minus; [ | reflexivity].
    apply SFdiv_minus; [apply SFabs_sign | exact Hr]. }
  destruct (not_positive_below_threshold _ He) as [Hge Hlt].
  unfold update_all_passed, status_of. cbn [ge lt B64.arith]. rewrite b64_threshold.
  rewrite Hge. split; [reflexivity | ].
  intro Hnum. rewrite (Hlt Hnum). reflexivity.
Qed.

(** X9 at a reference velocity of -29780 m/s. *)
Lemma X9_at_minus_29780 :
  exists e,
    percent_error B64.arith 29788.44%float (-29780)%float = Val e /\
    update_all_passed B64.arith e true = true /\
    (is_number e = true -> status_of B64.arith e = PASS).
Proof.
  apply (X9_negative_reference_never_fails 29788.44%float (-29780)%float true).
  vm_compute. reflexivity.
Defined.

(** ** An orbit radius of zero *)

Lemma eqb_zero_spec (x : float) :
  PrimFloat.eqb x 0 = true <-> exists s, Prim2SF x = S754_zero s.
Proof.
  rewrite eqb_spec. unfold SFeqb. change (Prim2SF 0) with (S754_zero false).
  destruct (Prim2SF x) as [s | s | | s m e]; simpl; split;
    try discriminate; try (intros [s' H]; discriminate); eauto.
  - destruct s; discriminate.
  - destruct s; discriminate.
Qed.

(** X10.  An orbit radius of zero, of either sign, in binary64:
    [calculate_orbital_velocity] raises [ZeroDivisionError], whereas
    [calculate_orbital_period] raises nothing and returns a zero, for any
    constants whose product [G * M_SUN] is above zero. *)
Theorem X10_zero_radius (g : module_globals float) (x : float) :
  PrimFloat.ltb 0 (G g * M_SUN g) = true ->
  PrimFloat.eqb x 0 = true ->
  calculate_orbital_velocity B64.arith g x = Exc ZeroDivisionError /\
  exists T, calculate_orbital_period B64.arith g x = Val T /\ PrimFloat.eqb T 0 = true.
Proof.
  intros Hgm Hx. split; [apply b64_velocity_zero_radius; exact Hx | ].
  apply ltb_zero_above_zero in Hgm.
  apply eqb_zero_spec in Hx. destruct Hx as [s Hx].
  unfold calculate_orbital_period.
  change (of_int B64.arith 2) with (Val 2%float).
  change (of_int B64.arith (24 * 3600)) with (Val 86400%float).
  change (pow3 B64.arith) with B64.pow3. change (div B64.arith) with B64.div.
  change (math_sqrt B64.arith) with B64.math_sqrt.
  cbn [mul math_pi B64.arith rbind].
  unfold B64.pow3. rewrite Hx. cbn [rbind].
  unfold B64.div at 1. rewrite (above_zero_not_zero _ Hgm). cbn [rbind].
  assert (Hq : exists s1, Prim2SF (x / (G g * M_SUN g)) = S754_zero s1).
  { rewrite div_spec, Hx.
    destruct (Prim2SF (G g * M_SUN g)) as [s1 | [ | ] | | [ | ] m e];
      try discriminate; simpl; eauto. }
  destruct Hq as [s1 Hq].
  unfold B64.math_sqrt.
  assert (Hlt : PrimFloat.ltb (x / (G g * M_SUN g)) 0 = false).
  { rewrite ltb_spec, Hq. reflexivity. }
  rewrite Hlt. cbn [rbind].
  unfold B64.div. change (PrimFloat.eqb 86400 0) with false.
  eexists. split; [reflexivity | ].
  apply eqb_zero_spec.
  rewrite div_spec, mul_spec, sqrt_spec, Hq.
  assert (Hc : exists m k, Prim2SF (2 * B64.math_pi) = S754_finite false m k)
    by (vm_compute; eauto).
  assert (Hd : exists m k, Prim2SF 86400 = S754_finite false m k)
    by (vm_compute; eauto).
  destruct Hc as (m1 & k1 & ->). destruct Hd as (m2 & k2 & ->).
  unfold SF64div, SF64mul, SF64sqrt. cbn [SFsqrt SFmul SFdiv]. eauto.
Qed.

(** X10 at the radius 0.0 with the script's constants. *)
Lemma X10_at_zero :
  calculate_orbital_velocity B64.arith B64.init 0%float = Exc ZeroDivisionError /\
  exists T, calculate_orbital_period B64.arith B64.init 0%float = Val T /\
            PrimFloat.eqb T 0 = true.
Proof.
  apply (X10_zero_radius B64.init 0%float).
  - vm_compute. reflexivity.
  - vm_compute. reflexivity.
Defined.

(** The period at a zero radius, whatever [x ** 3] yields elsewhere. *)
Lemma b64_period_zero_with (cube : float -> result float)
    (g : module_globals float) (x : float) :
  PrimFloat.ltb 0 (G g * M_SUN g) = true ->
  PrimFloat.eqb x 0 = true ->
  cube x = Val x ->
  exists T,
    calculate_orbital_period (B64.arith_with cube) g x = Val T /\
    PrimFloat.eqb T 0 = true.
Proof.
  intros Hgm Hx Hcube.
  apply ltb_zero_above_zero in Hgm.
  apply eqb_zero_spec in Hx. destruct Hx as [s Hx].
  unfold calculate_orbital_period.
  change (of_int (B64.arith_with cube) 2) with (Val 2%float).
  change (of_int (B64.arith_with cube) (24 * 3600)) with (Val 86400%float).
  change (pow3 (B64.arith_with cube)) with cube.
  change (div (B64.arith_with cube)) with B64.div.
  change (math_sqrt (B64.arith_with cube)) with B64.math_sqrt.
  cbn [mul math_pi B64.arith_with rbind].
  rewrite Hcube. cbn [rbind].
  unfold B64.div at 1. rewrite (above_zero_not_zero _ Hgm). cbn [rbind].
  assert (Hq : exists s1, Prim2SF (x / (G g * M_SUN g)) = S754_zero s1).
  { rewrite div_spec, Hx.
    destruct (Prim2SF (G g * M_SUN g)) as [s1 | [ | ] | | [ | ] m e];
      try discriminate; simpl; eauto. }
  destruct Hq as [s1 Hq].
  unfold B64.math_sqrt.
  assert (Hlt : PrimFloat.ltb (x / (G g * M_SUN g)) 0 = false).
  { rewrite ltb_spec, Hq. reflexivity. }
  rewrite Hlt. cbn [rbind].
  unfold B64.div. change (PrimFloat.eqb 86400 0) with false.
  eexists. split; [reflexivity | ].
  apply eqb_zero_spec.
  rewrite div_spec, mul_spec, sqrt_spec, Hq.
  assert (Hc : exists m k, Prim2SF (2 * B64.math_pi) = S754_finite false m k)
    by (vm_compute; eauto).
  assert (Hd : exists m k, Prim2SF 86400 = S754_finite false m k)
    by (vm_compute; eauto).
  destruct Hc as (m1 & k1 & ->). destruct Hd as (m2 & k2 & ->).
  unfold SF64div, SF64mul, SF64sqrt. cbn [SFsqrt SFmul SFdiv]. eauto.
Qed.

(** X15.  A body whose [orbit_radius] is a zero, in binary64 and whatever
    [x ** 3] yields elsewhere (the cube of a zero being that zero): when
    [G * M_SUN] is above zero and the body's reference period converts to
    a float that is not zero, the period check does not stop at the body
    but computes its line, with a calculated period that is a zero; the
    velocity check stops at the body with [ZeroDivisionError] unless a
    body before it stops it, having printed the velocity lines of the
    first [k] bodies only, all of them before that body; and [main] ends
    in an exception. *)
Theorem X15_zero_radius_in_the_run
    (cube : float -> result float) (w : world float)
    (pre post : list (string * body float)) (item : string * body float) (r : float) :
  PLANETS (globals w) = pre ++ item :: post ->
  PrimFloat.eqb (orbit_radius (snd item)) 0 = true ->
  cube (orbit_radius (snd item)) = Val (orbit_radius (snd item)) ->
  PrimFloat.ltb 0 (G (globals w) * M_SUN (globals w)) = true ->
  B64.of_int (expected_period_days (snd item)) = Val r ->
  PrimFloat.eqb r 0 = false ->
  (exists T e,
     period_row (B64.arith_with cube) (globals w) item =
     Val (PeriodRow (fst item) T (expected_period_days (snd item)) e
            (status_of (B64.arith_with cube) e)) /\
     PrimFloat.eqb T 0 = true) /\
  velocity_row (B64.arith_with cube) (globals w) item = Exc ZeroDivisionError /\
  (exists x k rows,
     verify_orbital_velocities (B64.arith_with cube) w =
     Raise x {| globals := globals w;
                stdout := stdout w ++ velocities_header (F := float) ++ rows |} /\
     k <= List.length pre /\
     lines_before (velocity_row (B64.arith_with cube) (globals w)) (firstn k pre) rows) /\
  (exists x w', main (B64.arith_with cube) w = Raise x w').
Proof.
  intros Htable Hz Hcube Hgm Hr Hr0.
  pose proof (velocity_row_zero_radius cube (globals w) item Hz) as Hv.
  split; [ | split; [exact Hv | ]].
  - destruct (b64_period_zero_with cube (globals w) _ Hgm Hz Hcube) as (T & HT & HT0).
    destruct item as [name data]. cbn [fst snd] in *.
    unfold period_row. rewrite HT. cbn [rbind].
    change (of_int (B64.arith_with cube)) with B64.of_int. rewrite Hr. cbn [rbind].
    unfold percent_error. change (div (B64.arith_with cube)) with B64.div.
    unfold B64.div. rewrite Hr0.
    change (of_int (B64.arith_with cube) 100) with (Val 100%float). cbn [rbind].
    eexists. eexists. split; [reflexivity | exact HT0].
  - exact (velocity_check_stops cube w pre post item _ Htable Hv).
Qed.

(** X15 on a table whose only body has the orbit radius 0.0. *)
Lemma X15_on_no_radius :
  (exists T e,
     period_row (B64.arith_with B64.pow3) (with_planets B64.init no_radius)
       ("Earth"%string,
        {| orbit_radius := 0%float;
           orbital_velocity := 29780%float;
           expected_period_days := 365;
           inclination := 0%float;
           radius := 6371000%float;
           mass := 5.972e24%float |}) =
     Val (PeriodRow "Earth" T 365 e (status_of (B64.arith_with B64.pow3) e)) /\
     PrimFloat.eqb T 0 = true) /\
  velocity_row (B64.arith_with B64.pow3) (with_planets B64.init no_radius)
    ("Earth"%string,
     {| orbit_radius := 0%float;
        orbital_velocity := 29780%float;
        expected_period_days := 365;
        inclination := 0%float;
        radius := 6371000%float;
        mass := 5.972e24%float |}) = Exc ZeroDivisionError /\
  (exists x k rows,
     verify_orbital_velocities (B64.arith_with B64.pow3)
       {| globals := with_planets B64.init no_radius; stdout := [] |} =
     Raise x {| globals := with_planets B64.init no_radius;
                stdout := [] ++ velocities_header (F := float) ++ rows |} /\
     k <= List.length (A := string * body float) [] /\
     lines_before (velocity_row (B64.arith_with B64.pow3)
                     (with_planets B64.init no_radius))
       (firstn k []) rows) /\
  (exists x w',
     main (B64.arith_with B64.pow3)
       {| globals := with_planets B64.init no_radius; stdout := [] |} = Raise x w').
Proof.
  apply (X15_zero_radius_in_the_run B64.pow3
           {| globals := with_planets B64.init no_radius; stdout := [] |}
           [] []
           ("Earth"%string,
            {| orbit_radius := 0%float;
               orbital_velocity := 29780%float;
               expected_period_days := 365;
               inclination := 0%float;
               radius := 6371000%float;
               mass := 5.972e24%float |})
           365%float).
  - reflexivity.
  - reflexivity.
  - reflexivity.
  - vm_compute. reflexivity.
  - vm_compute. reflexivity.
  - reflexivity.
Defined.

(** ** The check and the formulas over the reals *)

Section ExactEdges.

Local Open Scope R_scope.

Lemma percent_below_two (x r : R) : 0 < r -> (x / r * 100 < 2 <-> 100 * x < 2 * r).
Proof.
  intro Hr. assert (Hx : x = x / r * r) by (field; lra).
  generalize dependent (x / r). intros q Hx. subst x. split; intro H; nra.
Qed.

End ExactEdges.

(** X11.  Over the reals and for a reference above zero, the percent
    error is [|calculated - reference| / reference * 100], the status is
    PASS iff the calculated value lies strictly between 98% and 102% of
    the reference, and [all_passed] is cleared iff the status is FAIL. *)
Theorem X11_pass_iff_within_two_percent (c r : R) (all_passed : bool) :
  (0 < r)%R ->
  exists e,
    percent_error Exact.arith c r = Val e /\
    e = (Rabs (c - r) / r * 100)%R /\
    (status_of Exact.arith e = PASS <-> (98 * r < 100 * c < 102 * r)%R) /\
    update_all_passed Exact.arith e all_passed =
    match status_of Exact.arith e with PASS => all_passed | FAIL => false end.
Proof.
  intro Hr. unfold percent_error.
  change (of_int Exact.arith 100) with (Val (A := R) 100%R).
  change (mul Exact.arith) with Rmult. change (sub Exact.arith) with Rminus.
  change (fabs Exact.arith) with Rabs.
  rewrite exact_div by lra. cbn [rbind].
  eexists. split; [reflexivity | split; [reflexivity | ]].
  unfold status_of, update_all_passed.
  change (threshold Exact.arith) with 2%R.
  cbn [lt ge Exact.arith].
  pose proof (percent_below_two (Rabs (c - r)) r Hr) as Hiff.
  set (e := (Rabs (c - r) / r * 100)%R) in *.
  assert (Habs : (100 * Rabs (c - r) < 2 * r <-> 98 * r < 100 * c < 102 * r)%R).
  { unfold Rabs. destruct (Rcase_abs (c - r)); split; intro H; lra. }
  destruct (Rlt_dec e 2) as [Hlt | Hge]; destruct (Rge_dec e 2) as [Hge' | Hlt'];
    try lra; split; try reflexivity; split; intro H; try discriminate;
    try reflexivity; try tauto.
Qed.

(** X11 at Earth's velocity: 29788.44 against the reference 29780. *)
Lemma X11_at_earth_velocity :
  exists e,
    percent_error Exact.arith (2978844 / 100)%R 29780%R = Val e /\
    e = (Rabs (2978844 / 100 - 29780) / 29780 * 100)%R /\
    (status_of Exact.arith e = PASS <->
     (98 * 29780 < 100 * (2978844 / 100) < 102 * 29780)%R) /\
    update_all_passed Exact.arith e true =
    match status_of Exact.arith e with PASS => true | FAIL => false end.
Proof.
  apply (X11_pass_iff_within_two_percent (2978844 / 100)%R 29780%R true).
  lra.
Defined.

(** ** A radius below zero *)

Lemma binary_round_minus (m : positive) (e : Z) :
  not_positive (binary_round prec emax true m e) = true.
Proof.
  unfold binary_round.
  destruct (shl_align m e _) as [mz ez]. apply binary_round_aux_minus.
Qed.

Lemma SFopp_minus (x : spec_float) :
  not_negative x = true -> not_positive (SFopp x) = true.
Proof. destruct x as [s | s | | s m e]; simpl; try reflexivity; destruct s; auto. Qed.

(** Reading back a float built from a [spec_float] that is not positive. *)
Lemma SF2Prim_minus (y : spec_float) :
  not_positive y = true -> not_positive (Prim2SF (SF2Prim y)) = true.
Proof.
  destruct y as [[ | ] | [ | ] | | [ | ] m e]; simpl; intro Hy;
    try discriminate; try reflexivity.
  rewrite opp_spec. apply SFopp_minus.
  exact (SF2Prim_sign (S754_finite false m e) eq_refl).
Qed.

Lemma not_above_zero_not_positive (c : float) :
  PrimFloat.ltb 0 c = false -> not_positive (Prim2SF c) = true.
Proof.
  rewrite ltb_spec. unfold SFltb. change (Prim2SF 0) with (S754_zero false).
  destruct (Prim2SF c) as [s | [ | ] | | [ | ] m e]; simpl; intro H;
    try discriminate; reflexivity.
Qed.

Lemma not_positive_not_above_zero (c : float) :
  not_positive (Prim2SF c) = true -> PrimFloat.ltb 0 c = false.
Proof.
  rewrite ltb_spec. unfold SFltb. change (Prim2SF 0) with (S754_zero false).
  destruct (Prim2SF c) as [s | [ | ] | | [ | ] m e]; simpl; intro H;
    try discriminate; reflexivity.
Qed.

(** The correctly rounded cube of a float below zero is not above zero. *)
Lemma pow3_minus (x c : float) :
  PrimFloat.ltb x 0 = true -> B64.pow3 x = Val c -> PrimFloat.ltb 0 c = false.
Proof.
  intros Hx Hc. apply not_positive_not_above_zero.
  apply ltb_zero_below_zero in Hx. unfold B64.pow3 in Hc.
  destruct (Prim2SF x) as [s | [ | ] | | [ | ] m e] eqn:Ex; simpl in Hx;
    try discriminate.
  - injection Hc as <-. rewrite Ex. reflexivity.
  - pose proof (binary_round_minus (m * m * m) (3 * e)) as Hr.
    destruct (binary_round prec emax true (m * m * m) (3 * e)) eqn:Er;
      try discriminate; injection Hc as <-; exact (SF2Prim_minus _ Hr).
Qed.

Lemma SFdiv_minus_l (x y : spec_float) :
  not_positive x = true -> above_zero y = true ->
  not_positive (SFdiv prec emax x y) = true.
Proof.
  destruct x as [sx | sx | | sx mx ex], y as [sy | [ | ] | | [ | ] my ey];
    simpl; intros Hx Hy; try discriminate; try reflexivity;
    try (destruct sx; try discriminate; reflexivity).
  destruct sx; [ | discriminate].
  destruct (SFdiv_core_binary prec emax (Z.pos mx) ex (Z.pos my) ey) as [[mz ez] lz].
  apply binary_round_aux_minus.
Qed.

Lemma SFmul_minus_r (x y : spec_float) :
  above_zero x = true -> not_positive y = true ->
  not_positive (SFmul prec emax x y) = true.
Proof.
  destruct x as [sx | [ | ] | | [ | ] mx ex], y as [sy | sy | | sy my ey];
    simpl; intros Hx Hy; try discriminate; try reflexivity;
    try (destruct sy; try discriminate; reflexivity).
  destruct sy; [ | discriminate].
  apply binary_round_aux_minus.
Qed.

(** The square root of what is not above zero is not above zero, when it
    is taken. *)
Lemma SFsqrt_minus (q : float) :
  not_positive (Prim2SF q) = true -> PrimFloat.ltb q 0 = false ->
  not_positive (Prim2SF (PrimFloat.sqrt q)) = true.
Proof.
  rewrite sqrt_spec, ltb_spec. unfold SFltb, SF64sqrt.
  change (Prim2SF 0) with (S754_zero false).
  destruct (Prim2SF q) as [s | [ | ] | | [ | ] m e]; simpl; intros H1 H2;
    try discriminate; reflexivity.
Qed.

(** The two formulas at a radius below zero, whatever [x ** 3] yields. *)
Lemma b64_velocity_below_zero (cube : float -> result float)
    (g : module_globals float) (x : float) :
  PrimFloat.ltb 0 (G g * M_SUN g) = true -> PrimFloat.ltb x 0 = true ->
  calculate_orbital_velocity (B64.arith_with cube) g x = Exc ValueError \/
  exists v, calculate_orbital_velocity (B64.arith_with cube) g x = Val v /\
            PrimFloat.ltb 0 v = false.
Proof.
  intros Hgm Hx. apply ltb_zero_above_zero in Hgm. apply ltb_zero_below_zero in Hx.
  unfold calculate_orbital_velocity.
  change (mul (B64.arith_with cube)) with PrimFloat.mul.
  change (div (B64.arith_with cube)) with B64.div.
  change (math_sqrt (B64.arith_with cube)) with B64.math_sqrt.
  unfold B64.div. rewrite (below_zero_not_zero x Hx). cbn [rbind].
  assert (Hq : not_positive (Prim2SF (G g * M_SUN g / x)) = true).
  { rewrite div_spec. apply SFdiv_minus; [ | exact Hx].
    destruct (Prim2SF (G g * M_SUN g)) as [s | [ | ] | | [ | ] m e];
      try discriminate; reflexivity. }
  unfold B64.math_sqrt.
  destruct (PrimFloat.ltb (G g * M_SUN g / x) 0) eqn:Hlt; [left; reflexivity | right].
  eexists. split; [reflexivity | ].
  apply not_positive_not_above_zero. apply SFsqrt_minus; assumption.
Qed.

Lemma b64_period_below_zero (cube : float -> result float)
    (g : module_globals float) (x : float) :
  PrimFloat.ltb 0 (G g * M_SUN g) = true ->
  (forall c, cube x = Val c -> PrimFloat.ltb 0 c = false) ->
  match cube x with
  | Exc e => calculate_orbital_period (B64.arith_with cube) g x = Exc e
  | Val _ =>
      calculate_orbital_period (B64.arith_with cube) g x = Exc ValueError \/
      exists T, calculate_orbital_period (B64.arith_with cube) g x = Val T /\
                PrimFloat.ltb 0 T = false
  end.
Proof.
  intros Hgm Hsign. apply ltb_zero_above_zero in Hgm.
  unfold calculate_orbital_period.
  change (of_int (B64.arith_with cube) 2) with (Val 2%float).
  change (of_int (B64.arith_with cube) (24 * 3600)) with (Val 86400%float).
  change (pow3 (B64.arith_with cube)) with cube.
  change (div (B64.arith_with cube)) with B64.div.
  change (math_sqrt (B64.arith_with cube)) with B64.math_sqrt.
  cbn [mul math_pi B64.arith_with rbind].
  destruct (cube x) as [c | e]; cbn [rbind]; [ | reflexivity ].
  pose proof (not_above_zero_not_positive c (Hsign c eq_refl)) as Hc.
  unfold B64.div. rewrite (above_zero_not_zero _ Hgm).
  change (PrimFloat.eqb 86400 0) with false. cbn [rbind].
  assert (Hq : not_positive (Prim2SF (c / (G g * M_SUN g))) = true).
  { rewrite div_spec. apply SFdiv_minus_l; assumption. }
  unfold B64.math_sqrt.
  destruct (PrimFloat.ltb (c / (G g * M_SUN g)) 0) eqn:Hlt; [left; reflexivity | right].
  cbn [rbind].
  eexists. split; [reflexivity | ].
  apply not_positive_not_above_zero.
  rewrite div_spec, mul_spec.
  assert (H1 : exists m k, Prim2SF (2 * B64.math_pi) = S754_finite false m k)
    by (vm_compute; eauto).
  assert (H2 : exists m k, Prim2SF 86400 = S754_finite false m k)
    by (vm_compute; eauto).
  destruct H1 as (m1 & k1 & ->). destruct H2 as (m2 & k2 & ->).
  apply SFdiv_minus_l; [ | reflexivity].
  apply SFmul_minus_r; [reflexivity | ].
  apply SFsqrt_minus; assumption.
Qed.

(** X12.  A radius below zero in binary64, whatever [x ** 3] yields (a
    power of a base below zero with the exponent 3 is not above zero) and
    for constants with [G * M_SUN] above zero: neither formula returns a
    value above zero.  [calculate_orbital_velocity] raises [ValueError]
    or returns a float that is not above zero (a zero, when the quotient
    is one); [calculate_orbital_period] raises what [x ** 3] raises, or
    [ValueError], or returns a float that is not above zero. *)
Theorem X12_formulas_outside_their_domain
    (cube : float -> result float) (g : module_globals float) (x : float) :
  PrimFloat.ltb 0 (G g * M_SUN g) = true ->
  PrimFloat.ltb x 0 = true ->
  (forall y c, PrimFloat.ltb y 0 = true -> cube y = Val c -> PrimFloat.ltb 0 c = false) ->
  (calculate_orbital_velocity (B64.arith_with cube) g x = Exc ValueError \/
   exists v, calculate_orbital_velocity (B64.arith_with cube) g x = Val v /\
             PrimFloat.ltb 0 v = false) /\
  match cube x with
  | Exc e => calculate_orbital_period (B64.arith_with cube) g x = Exc e
  | Val _ =>
      calculate_orbital_period (B64.arith_with cube) g x = Exc ValueError \/
      exists T, calculate_orbital_period (B64.arith_with cube) g x = Val T /\
                PrimFloat.ltb 0 T = false
  end.
Proof.
  intros Hgm Hx Hsign. split.
  - apply b64_velocity_below_zero; assumption.
  - apply b64_period_below_zero; [exact Hgm | ].
    intros c Hc. exact (Hsign x c Hx Hc).
Qed.

(** X12 at the radius -1.0, with the correctly rounded cube. *)
Lemma X12_at_minus_one :
  (calculate_orbital_velocity (B64.arith_with B64.pow3) B64.init (-1)%float =
   Exc ValueError \/
   exists v, calculate_orbital_velocity (B64.arith_with B64.pow3) B64.init (-1)%float =
             Val v /\
             PrimFloat.ltb 0 v = false) /\
  match B64.pow3 (-1)%float with
  | Exc e => calculate_orbital_period (B64.arith_with B64.pow3) B64.init (-1)%float = Exc e
  | Val _ =>
      calculate_orbital_period (B64.arith_with B64.pow3) B64.init (-1)%float =
      Exc ValueError \/
      exists T, calculate_orbital_period (B64.arith_with B64.pow3) B64.init (-1)%float =
                Val T /\
                PrimFloat.ltb 0 T = false
  end.
Proof.
  apply (X12_formulas_outside_their_domain B64.pow3 B64.init (-1)%float).
  - vm_compute. reflexivity.
  - vm_compute. reflexivity.
  - exact pow3_minus.
Defined.

(** X16.  Each of these cases occurs in binary64 with the script's
    constants: at the radius -1.0 both formulas raise [ValueError]; at
    -1e-200 the cube underflows and [calculate_orbital_period] returns
    -0.0; at -1e103 the cube overflows and it raises [OverflowError]; at
    the infinity below zero [calculate_orbital_velocity] returns -0.0. *)
Theorem X16_radius_below_zero_cases :
  calculate_orbital_period B64.arith B64.init (-1)%float = Exc ValueError /\
  calculate_orbital_velocity B64.arith B64.init (-1)%float = Exc ValueError /\
  calculate_orbital_period B64.arith B64.init (-1e-200)%float = Val neg_zero /\
  calculate_orbital_period B64.arith B64.init (-1e103)%float = Exc OverflowError /\
  calculate_orbital_velocity B64.arith B64.init neg_infinity = Val neg_zero.
Proof.
  split; [vm_compute; reflexivity | ].
  split; [vm_compute; reflexivity | ].
  split; [vm_compute; reflexivity | ].
  split; vm_compute; reflexivity.
Qed.

(** ** What a completed run has printed *)

Section Output.

Context {F : Type} (A : Arith F).

(** A report that returns has printed its header and one line per item. *)
Lemma report_ok {B : Type}
    (row : module_globals F -> string * body F -> result (line F))
    (upd : line F -> B -> B) (header : list (line F))
    (items : list (string * body F)) (acc : B) (w : world F) (b : B) (w' : world F)
    (R : string * body F -> line F -> Prop) :
  (forall item l, row (globals w) item = Val l -> R item l) ->
  report_outcome row upd header items acc w = Ok b w' ->
  exists rows,
    w' = {| globals := globals w; stdout := stdout w ++ header ++ rows |} /\
    Forall2 R items rows.
Proof.
  intro HR. unfold report_outcome.
  destruct (collect (row (globals w)) items) as [rows [x | ]] eqn:Hc; [discriminate | ].
  intros [= _ <-]. exists rows. split; [reflexivity | ].
  apply (collect_all (row (globals w))); [exact HR | exact Hc].
Qed.

Lemma period_row_names (g : module_globals F) (item : string * body F) (l : line F) :
  period_row A g item = Val l -> names item l.
Proof. intro H. exact (proj1 (period_row_checked A g item l H)). Qed.

Lemma velocity_row_names (g : module_globals F) (item : string * body F) (l : line F) :
  velocity_row A g item = Val l -> names item l.
Proof. intro H. exact (proj1 (velocity_row_checked A g item l H)). Qed.

Lemma distance_row_names (g : module_globals F) (item : string * body F) (l : line F) :
  distance_row A g item = Val l -> names item l.
Proof.
  destruct item as [name data]. unfold distance_row.
  destruct (div A (orbit_radius data) (AU g)) as [au | ]; [ | discriminate ].
  cbn [rbind].
  destruct (dict_get (expected_au A) name) as [e | ]; [ | destruct (of_int A 0) as [e | ] ];
    cbn [rbind]; try discriminate; intros [= <-]; reflexivity.
Qed.

Lemma summary_row_names (g : module_globals F) (item : string * body F) (l : line F) :
  summary_row A g item = Val l -> names item l.
Proof.
  destruct item as [name data]. unfold summary_row.
  destruct (rbind (of_int A 1000) (div A (radius data))) as [km | ]; [ | discriminate ].
  cbn [rbind].
  destruct (div A (orbit_radius data) (AU g)) as [au | ]; [ | discriminate ].
  cbn [rbind]. intros [= <-]. reflexivity.
Qed.

End Output.

(** X13.  When [main] returns, in any arithmetic and for any table, it
    has made these calls of [print], in this order: its six opening lines;
    for each of the four reports the five calls of its header (the first
    of them the rule after a newline) and then one line per body of the
    table, in table order and carrying that body's name; and the four
    closing lines.  The exit code is 0 or 1, and the last line is the "All
    orbital parameters are within acceptable error margins" message iff
    the exit code is 0, the "Some orbital parameters have errors exceeding
    2%" message otherwise. *)
Theorem X13_result_line_matches_exit_code
    (F : Type) (A : Arith F) (w : world F) (code : Z) (w' : world F) :
  main A w = Ok code w' ->
  exists r1 r2 r3 r4,
    stdout w' =
    stdout w ++ opening_lines (globals w) ++
    periods_header (F := F) ++ r1 ++ velocities_header (F := F) ++ r2 ++
    distances_header (F := F) ++ r3 ++ summary_header (F := F) ++ r4 ++
    closing_lines code /\
    Forall2 (names (F := F)) (PLANETS (globals w)) r1 /\
    Forall2 (names (F := F)) (PLANETS (globals w)) r2 /\
    Forall2 (names (F := F)) (PLANETS (globals w)) r3 /\
    Forall2 (names (F := F)) (PLANETS (globals w)) r4 /\
    (code = 0 \/ code = 1)%Z.
Proof.
  rewrite main_steps.
  rewrite verify_orbital_periods_report.
  destruct (report_outcome (period_row A) _ _ _ _ _) as [p w1 | ] eqn:H1; [ | discriminate ].
  apply (report_ok _ _ _ _ _ _ _ _ (names (F := F))) in H1;
    [ | intros item l; apply period_row_names ].
  destruct H1 as (r1 & -> & N1). cbn [globals stdout] in *.
  rewrite verify_orbital_velocities_report.
  destruct (report_outcome (velocity_row A) _ _ _ _ _) as [v w2 | ] eqn:H2; [ | discriminate ].
  apply (report_ok _ _ _ _ _ _ _ _ (names (F := F))) in H2;
    [ | intros item l; apply velocity_row_names ].
  destruct H2 as (r2 & -> & N2). cbn [globals stdout] in *.
  rewrite verify_orbit_distances_report.
  destruct (report_outcome (distance_row A) _ _ _ _ _) as [[] w3 | ] eqn:H3; [ | discriminate ].
  apply (report_ok _ _ _ _ _ _ _ _ (names (F := F))) in H3;
    [ | intros item l; apply distance_row_names ].
  destruct H3 as (r3 & -> & N3). cbn [globals stdout] in *.
  rewrite print_summary_report.
  destruct (report_outcome (summary_row A) _ _ _ _ _) as [[] w4 | ] eqn:H4; [ | discriminate ].
  apply (report_ok _ _ _ _ _ _ _ _ (names (F := F))) in H4;
    [ | intros item l; apply summary_row_names ].
  destruct H4 as (r4 & -> & N4). cbn [globals stdout] in *.
  intros [= <- <-]. exists r1, r2, r3, r4. cbn [stdout].
  split; [repeat rewrite <- app_assoc; reflexivity | ].
  do 4 (split; [assumption | ]).
  destruct (andb p v); [left | right]; reflexivity.
Qed.

(** X13 on the run of the script. *)
Lemma X13_on_the_run :
  exists r1 r2 r3 r4,
    stdout (world_of (main B64.arith (start B64.arith []))) =
    [] ++ opening_lines B64.init ++
    periods_header (F := float) ++ r1 ++ velocities_header (F := float) ++ r2 ++
    distances_header (F := float) ++ r3 ++ summary_header (F := float) ++ r4 ++
    closing_lines 0 /\
    Forall2 (names (F := float)) (PLANETS B64.init) r1 /\
    Forall2 (names (F := float)) (PLANETS B64.init) r2 /\
    Forall2 (names (F := float)) (PLANETS B64.init) r3 /\
    Forall2 (names (F := float)) (PLANETS B64.init) r4 /\
    (0 = 0 \/ 0 = 1)%Z.
Proof.
  apply (X13_result_line_matches_exit_code float B64.arith (start B64.arith []) 0%Z
           (world_of (main B64.arith (start B64.arith [])))).
  vm_compute. reflexivity.
Defined.
